(** * Collision resolution core of Babylon.js

    A shallow embedding of [DefaultCollisionCoordinator]
    (packages/dev/core/src/Collisions/collisionCoordinator.ts): the entry
    point [getNewPosition] and the retry-bounded sweep [_collideWithWorld].

    JavaScript numbers are IEEE-754 binary64 values; they are modelled by
    Rocq's primitive floats, so every arithmetic step of the model rounds the
    way the engine does.  Retry counters and bit masks hold integers and are
    modelled in [Z].  The objects the TypeScript code mutates in place (the
    coordinator's scratch vectors and the collider) are threaded through the
    model as one explicit [State]; the calls the coordinator makes to its
    collaborators are recorded, in order, in an event trace. *)

From Stdlib Require Import ZArith List Bool Lia Floats.
Import ListNotations.

Local Open Scope Z_scope.

(** ** Vectors *)

(** Modelled from the spec: Maths/math.vector is not among the sources.  Only
    the operations the coordinator calls are given, each under the name the
    coordinator uses; the "ToRef"/"InPlace" variants return the value that the
    TypeScript method stores in its target. *)
Module Vector3.

Record t : Set := mk { x : float; y : float; z : float }.

Definition Zero : t := mk 0 0 0.

(** [v.divideToRef(other, result)]: per-axis division. *)
Definition divideToRef (v other : t) : t :=
    mk (x v / x other) (y v / y other) (z v / z other).

(** [v.multiplyInPlace(other)]: per-axis product. *)
Definition multiplyInPlace (v other : t) : t :=
    mk (x v * x other) (y v * y other) (z v * z other).

(** [v.addToRef(other, result)]. *)
Definition addToRef (v other : t) : t :=
    mk (x v + x other) (y v + y other) (z v + z other).

Definition subtract (v other : t) : t :=
    mk (x v - x other) (y v - y other) (z v - z other).

(** [result.copyFrom(source)]. *)
Definition copyFrom (source : t) : t := source.

(** [v.setAll(f)]. *)
Definition setAll (f : float) : t := mk f f f.

(** [v.length()]. *)
Definition length (v : t) : float :=
    PrimFloat.sqrt (x v * x v + y v * y v + z v * z v).


(** The test [v.x !== 0 || v.y !== 0 || v.z !== 0] of the sweep. *)
Definition isNonZero (v : t) : bool :=
    negb (x v =? 0)%float || negb (y v =? 0)%float || negb (z v =? 0)%float.

(** Every component strictly positive: what the spec requires of a radius. *)
Definition isPositive (v : t) : bool :=
    (0 <? x v)%float && (0 <? y v)%float && (0 <? z v)%float.

End Vector3.

(** ** Bit masks *)

(** [ToInt32] of an integral number, and JavaScript's [a & b]. *)
Definition ToInt32 (n : Z) : Z := (n + 2 ^ 31) mod 2 ^ 32 - 2 ^ 31.

Definition bitAnd (a b : Z) : Z := Z.land (ToInt32 a) (ToInt32 b).

(** ** Meshes and scene *)

(** The coordinator never looks inside a sub-mesh: only the presence of the
    [subMeshes] array is tested. *)
Inductive SubMesh : Set := subMesh : SubMesh.

(** The part of [AbstractMesh] the coordinator reads.  Object identity
    ([mesh !== excludedMesh]) is carried by [uniqueId]; a field that may be
    null or undefined is an [option]. *)
Module AbstractMesh.

#[warnings="-register-all"] Inductive t : Set := mk {
    uniqueId : Z;
    isEnabled : bool;
    checkCollisions : bool;
    subMeshes : option (list SubMesh);
    collisionGroup : Z;
    collisionMask : Z;
    surroundingMeshes : option (list t)
  }.

(** [a !== b] on mesh references. *)
Definition differs (a b : t) : bool := negb (uniqueId a =? uniqueId b).

End AbstractMesh.

Record Scene : Set := { meshes : list AbstractMesh.t }.

(** ** Collider *)

(** The fields of [Collider] the coordinator touches, plus [internal]: the
    nearest-intersection bookkeeping, whose representation belongs to
    collider.ts (not among the sources) and is left abstract. *)
Module Collider.

Record t (Internal : Type) : Type := mk {
    _radius : Vector3.t;
    _retry : Z;
    _initialVelocity : Vector3.t;
    _initialPosition : Vector3.t;
    collisionFound : bool;
    collidedMesh : option AbstractMesh.t;
    collisionMask : Z;
    internal : Internal
  }.

Arguments mk {Internal}.
Arguments _radius {Internal}.
Arguments _retry {Internal}.
Arguments _initialVelocity {Internal}.
Arguments _initialPosition {Internal}.
Arguments collisionFound {Internal}.
Arguments collidedMesh {Internal}.
Arguments collisionMask {Internal}.
Arguments internal {Internal}.

Section Updates.
Context {Internal : Type}.
Implicit Type c : t Internal.

Definition set_retry (n : Z) c : t Internal :=
      mk (_radius c) n (_initialVelocity c) (_initialPosition c)
         (collisionFound c) (collidedMesh c) (collisionMask c) (internal c).

Definition set_collidedMesh (m : option AbstractMesh.t) c : t Internal :=
      mk (_radius c) (_retry c) (_initialVelocity c) (_initialPosition c)
         (collisionFound c) m (collisionMask c) (internal c).

(** The collider's [_initialPosition] and [_initialVelocity] are the
        coordinator's scratch vectors themselves (one object, two names):
        whenever the sweep rewrites the scratch vectors the collider sees the
        new values. *)
Definition set_initial (position velocity : Vector3.t) c : t Internal :=
      mk (_radius c) (_retry c) velocity position
         (collisionFound c) (collidedMesh c) (collisionMask c) (internal c).

(** What a narrow-phase test or a sweep reset may write. *)
Definition set_contact (found : bool) (m : option AbstractMesh.t)
               (st : Internal) c : t Internal :=
      mk (_radius c) (_retry c) (_initialVelocity c) (_initialPosition c)
         found m (collisionMask c) st.

Definition set_internal (st : Internal) c : t Internal :=
      mk (_radius c) (_retry c) (_initialVelocity c) (_initialPosition c)
         (collisionFound c) (collidedMesh c) (collisionMask c) st.
End Updates.

End Collider.

(** ** Calls to collaborators *)

(** What the coordinator asks of the outside world, in the order it asks. *)
Inductive Event : Set :=
| EvInitialize (position velocity : Vector3.t) (closeDistance : float)
| EvCheckCollision (mesh : AbstractMesh.t)
| EvGetResponse (position velocity : Vector3.t) (slideOnCollide : bool)
| EvCallback (collisionIndex : Z) (newPosition : Vector3.t)
             (collidedMesh : option AbstractMesh.t).

Definition isSweep (e : Event) : bool :=
  match e with EvInitialize _ _ _ => true | _ => false end.

Definition isNarrowPhase (e : Event) : bool :=
  match e with EvCheckCollision _ => true | _ => false end.

Definition isCallback (e : Event) : bool :=
  match e with EvCallback _ _ _ => true | _ => false end.

(** Number of sweep iterations (mesh loops) a trace contains. *)
Definition sweeps (tr : list Event) : nat := List.length (filter isSweep tr).

(** The meshes handed to the narrow-phase test, in order. *)
Fixpoint testedMeshes (tr : list Event) : list AbstractMesh.t :=
  match tr with
  | [] => []
  | EvCheckCollision m :: tr' => m :: testedMeshes tr'
  | _ :: tr' => testedMeshes tr'
  end.

(** ** The coordinator *)

Section Coordinator.

(** The collider's private bookkeeping. *)
Variable Internal : Type.

Local Abbreviation Collider := (Collider.t Internal).

(** [AbstractEngine.CollisionsEpsilon] (the engine is not among the
    sources). *)
Variable CollisionsEpsilon : float.

(** Modelled from the spec: the bookkeeping [Collider._initialize] sets up
    for a fresh sweep from the position, the velocity and the proximity
    threshold. *)
Variable resetBookkeeping :
    Vector3.t -> Vector3.t -> float -> Collider -> Internal.

(** Modelled from the spec: the narrow-phase test of one mesh
    ([AbstractMesh._checkCollision], not among the sources).  It updates the
    collider's collision flag, collided mesh and bookkeeping and nothing
    else. *)
Variable narrowPhase :
    AbstractMesh.t -> Collider -> bool * option AbstractMesh.t * Internal.

(** Modelled from the spec: [Collider._getResponse].  It receives the
    position and velocity objects and may rewrite both in place, together
    with the bookkeeping. *)
Variable response :
    Vector3.t -> Vector3.t -> bool -> Collider ->
    Vector3.t * Vector3.t * Internal.

(** Everything one [getNewPosition] call mutates: the coordinator's three
    scratch vectors ([_scaledPosition], [_scaledVelocity], [_finalPosition],
    passed to the sweep as [position], [velocity], [finalPosition]), the
    collider, and the calls made so far. *)
Record State : Type := mkState {
    position : Vector3.t;
    velocity : Vector3.t;
    finalPosition : Vector3.t;
    collider : Collider;
    trace : list Event
  }.

Definition set_finalPosition (v : Vector3.t) (s : State) : State :=
    mkState (position s) (velocity s) v (collider s) (trace s).

Definition set_collider (c : Collider) (s : State) : State :=
    mkState (position s) (velocity s) (finalPosition s) c (trace s).

Definition emit (e : Event) (s : State) : State :=
    mkState (position s) (velocity s) (finalPosition s) (collider s)
            (trace s ++ [e]).

(** Rewriting the scratch vectors in place; the collider's aliases follow. *)
Definition set_motion (p v : Vector3.t) (s : State) : State :=
    mkState p v (finalPosition s) (Collider.set_initial p v (collider s))
            (trace s).

(** Modelled from the spec: [collider._initialize(position, velocity,
    closeDistance)] (collider.ts is not among the sources).  It starts a fresh
    sweep: the collision flag is cleared and the bookkeeping reset; the
    collided mesh, the retry counter and the radius are not touched. *)
Definition _initialize (closeDistance : float) (s : State) : State :=
    let c := collider s in
    emit (EvInitialize (position s) (velocity s) closeDistance)
      (set_collider
         (Collider.set_contact false (Collider.collidedMesh c)
            (resetBookkeeping (position s) (velocity s) closeDistance c) c)
         s).

(** [mesh._checkCollision(collider)]: the narrow-phase result is written to
    the collider. *)
Definition _checkCollision (mesh : AbstractMesh.t) (s : State) : State :=
    let c := collider s in
    let '(found, hit, st) := narrowPhase mesh c in
    emit (EvCheckCollision mesh)
      (set_collider (Collider.set_contact found hit st c) s).

(** [collider._getResponse(position, velocity, slideOnCollide)]: what the
    response writes to the two vectors and to the bookkeeping. *)
Definition _getResponse (slideOnCollide : bool) (s : State) : State :=
    let '(p, v, st) :=
      response (position s) (velocity s) slideOnCollide (collider s) in
    emit (EvGetResponse (position s) (velocity s) slideOnCollide)
      (set_motion p v (set_collider (Collider.set_internal st (collider s)) s)).

(** [excludedMesh ? excludedMesh.collisionMask : collider.collisionMask] *)
Definition effectiveMask (excludedMesh : option AbstractMesh.t)
             (c : Collider) : Z :=
    match excludedMesh with
    | Some m => AbstractMesh.collisionMask m
    | None => Collider.collisionMask c
    end.

(** [(excludedMesh && excludedMesh.surroundingMeshes) || this._scene.meshes]
    (an array, even an empty one, is truthy). *)
Definition candidates (scene : Scene)
             (excludedMesh : option AbstractMesh.t) : list AbstractMesh.t :=
    match excludedMesh with
    | Some m =>
        match AbstractMesh.surroundingMeshes m with
        | Some l => l
        | None => meshes scene
        end
    | None => meshes scene
    end.

(** The condition guarding [mesh._checkCollision(collider)]. *)
Definition shouldCheck (collisionMask : Z)
             (excludedMesh : option AbstractMesh.t)
             (mesh : AbstractMesh.t) : bool :=
    AbstractMesh.isEnabled mesh
    && AbstractMesh.checkCollisions mesh
    && (match AbstractMesh.subMeshes mesh with Some _ => true | None => false end)
    && (match excludedMesh with
        | Some e => AbstractMesh.differs mesh e
        | None => true
        end)
    && negb (bitAnd collisionMask (AbstractMesh.collisionGroup mesh) =? 0).

(** The [for] loop over the candidate meshes. *)
Fixpoint checkMeshes (collisionMask : Z)
           (excludedMesh : option AbstractMesh.t)
           (l : list AbstractMesh.t) (s : State) : State :=
    match l with
    | [] => s
    | mesh :: rest =>
        checkMeshes collisionMask excludedMesh rest
          (if shouldCheck collisionMask excludedMesh mesh
           then _checkCollision mesh s
           else s)
    end.

Definition closeDistance : float := (CollisionsEpsilon * 10)%float.

(** One sweep iteration up to the end of the mesh loop: mask, reset,
      candidate set, loop. *)
Definition sweepIteration (scene : Scene)
             (excludedMesh : option AbstractMesh.t) (s : State) : State :=
    let collisionMask := effectiveMask excludedMesh (collider s) in
    let s1 := _initialize closeDistance s in
    checkMeshes collisionMask excludedMesh (candidates scene excludedMesh) s1.

(** The response step of an iteration that found a collision. *)
Definition respond (slideOnCollide : bool) (s : State) : State :=
    if Vector3.isNonZero (velocity s) then
      let s1 := _getResponse slideOnCollide s in
      if negb slideOnCollide
      then set_motion (position s1) (Vector3.setAll 0) s1
      else s1
    else s.

Definition incr_retry (s : State) : State :=
    set_collider (Collider.set_retry (Collider._retry (collider s) + 1)
                                     (collider s)) s.

(** [_collideWithWorld]; [scene] is [this._scene].  The recursion of the
    source is unrolled on [fuel]: [None] means the fuel ran out before the
    source's recursion ended. *)
Fixpoint _collideWithWorld (fuel : nat) (scene : Scene) (s : State)
           (maximumRetry : Z) (slideOnCollide : bool)
           (excludedMesh : option AbstractMesh.t) : option State :=
    match fuel with
    | O => None
    | S fuel' =>
        if Collider._retry (collider s) >=? maximumRetry then
          Some (set_finalPosition (Vector3.copyFrom (position s)) s)
        else
          let s1 := sweepIteration scene excludedMesh s in
          if negb (Collider.collisionFound (collider s1)) then
            Some (set_finalPosition
                    (Vector3.addToRef (position s1) (velocity s1)) s1)
          else
            let s2 := respond slideOnCollide s1 in
            if (Vector3.length (velocity s2) <=? closeDistance)%float then
              Some (set_finalPosition (Vector3.copyFrom (position s2)) s2)
            else
              _collideWithWorld fuel' scene (incr_retry s2) maximumRetry
                                slideOnCollide excludedMesh
    end.

(** The state [getNewPosition] hands to the sweep.  [previous] is the
    content of [this._finalPosition] left by an earlier call. *)
Definition enterSweep (previous position displacement : Vector3.t)
             (c : Collider) : State :=
    let scaledPosition := Vector3.divideToRef position (Collider._radius c) in
    let scaledVelocity := Vector3.divideToRef displacement (Collider._radius c) in
    mkState scaledPosition scaledVelocity previous
      (Collider.set_initial scaledPosition scaledVelocity
         (Collider.set_retry 0 (Collider.set_collidedMesh None c)))
      [].

(** [getNewPosition].  The callback [onNewPosition] is a collaborator: its
    invocation is the [EvCallback] event.  [slideOnCollide] defaults to
    [true] at the call site. *)
Definition getNewPosition (fuel : nat) (scene : Scene)
             (previous position displacement : Vector3.t) (c : Collider)
             (maximumRetry : Z) (excludedMesh : option AbstractMesh.t)
             (collisionIndex : Z) (slideOnCollide : bool) : option State :=
    match _collideWithWorld fuel scene
            (enterSweep previous position displacement c)
            maximumRetry slideOnCollide excludedMesh with
    | None => None
    | Some s =>
        let s' := set_finalPosition
                    (Vector3.multiplyInPlace (finalPosition s)
                       (Collider._radius (collider s))) s in
        Some (emit (EvCallback collisionIndex (finalPosition s')
                      (Collider.collidedMesh (collider s'))) s')
    end.

End Coordinator.

Arguments mkState {Internal}.
Arguments position {Internal}.
Arguments velocity {Internal}.
Arguments finalPosition {Internal}.
Arguments collider {Internal}.
Arguments trace {Internal}.
Arguments set_finalPosition {Internal}.
Arguments set_collider {Internal}.
Arguments set_motion {Internal}.
Arguments emit {Internal}.
Arguments incr_retry {Internal}.
Arguments enterSweep {Internal}.
Arguments effectiveMask {Internal}.

(** ** A reference world

    A concrete collider implementation and scene on which the model can be
    run: a unit sphere above the horizontal plane [y = 0].  The narrow phase
    of the ground reports a contact as soon as the swept centre ends below
    height 1 (this includes resting contact with no motion at all); the
    response cancels the component of the velocity along the plane's normal
    and keeps the tangential one, leaving the position where it is, which is
    how the spec describes the slide response. *)
Module PlaneWorld.

Record Bookkeeping : Set := mkBookkeeping {
    basePoint : Vector3.t;
    sweepVelocity : Vector3.t;
    epsilon : float
  }.

#[warnings="-inexact-float"] Definition CollisionsEpsilon : float := 0.001%float.

Definition reset (p v : Vector3.t) (e : float)
           (c : Collider.t Bookkeeping) : Bookkeeping :=
  mkBookkeeping p v e.

Definition narrow (m : AbstractMesh.t) (c : Collider.t Bookkeeping)
  : bool * option AbstractMesh.t * Bookkeeping :=
  let b := Collider.internal c in
  if (Vector3.y (basePoint b) + Vector3.y (sweepVelocity b) <? 1)%float
  then (true, Some m, b)
  else (Collider.collisionFound c, Collider.collidedMesh c, b).

Definition slide (p v : Vector3.t) (slideOnCollide : bool)
           (c : Collider.t Bookkeeping) : Vector3.t * Vector3.t * Bookkeeping :=
  (p, Vector3.mk (Vector3.x v) 0 (Vector3.z v), Collider.internal c).

Definition ground : AbstractMesh.t :=
  AbstractMesh.mk 1 true true (Some [subMesh]) (-1) (-1) None.

Definition world : Scene := {| meshes := [ground] |}.

Definition void : Scene := {| meshes := [] |}.

(** A freshly constructed collider with the given radius. *)
Definition ball (radius : Vector3.t) : Collider.t Bookkeeping :=
  Collider.mk radius 0 Vector3.Zero Vector3.Zero false None (-1)
    (mkBookkeeping Vector3.Zero Vector3.Zero 0).

Definition unitRadius : Vector3.t := Vector3.mk 1 1 1.

(** The coordinator over this world. *)
Definition getNewPosition :=
  getNewPosition Bookkeeping CollisionsEpsilon reset narrow slide.

Definition collide :=
  _collideWithWorld Bookkeeping CollisionsEpsilon reset narrow slide.

Definition iteration :=
  sweepIteration Bookkeeping CollisionsEpsilon reset narrow.

(** A ball two units above the ground asked to move one unit along the
    plane and three units down into it, as it enters the sweep... *)
Definition approach : State Bookkeeping :=
  enterSweep Vector3.Zero (Vector3.mk 0 2 0) (Vector3.mk 1 (-3) 0)
             (ball unitRadius).

(** ... and as it enters the second iteration, its velocity deflected. *)
Definition deflected : State Bookkeeping :=
  incr_retry (respond Bookkeeping slide true (iteration world None approach)).

End PlaneWorld.

(** ** The coordinator as an object

    [DefaultCollisionCoordinator] with its own fields: the scene bound by
    [init] and the three scratch vectors.  A coordinator fresh from the
    factory has no scene; reading [this._scene.meshes] then throws a
    TypeError, which leaves [_collideWithWorld] and [getNewPosition] at once,
    before the callback. *)
Module DefaultCollisionCoordinator.

Record t : Set := mk {
    _scene : option Scene;
    _scaledPosition : Vector3.t;
    _scaledVelocity : Vector3.t;
    _finalPosition : Vector3.t
  }.

(** [new DefaultCollisionCoordinator()], as [Scene.CollisionCoordinatorFactory]
    builds it: [_scene] is not assigned, the scratch vectors are
    [Vector3.Zero()]. *)
Definition create : t := mk None Vector3.Zero Vector3.Zero Vector3.Zero.

(** [init(scene)]. *)
Definition init (scene : Scene) (this : t) : t :=
  mk (Some scene) (_scaledPosition this) (_scaledVelocity this)
     (_finalPosition this).

(** How a call ends: it returns, it throws the TypeError of an unassigned
    [_scene] (with the state reached when the exception leaves), or the
    unrolling ran out of fuel.  No other exception is modelled; in
    particular the engine's limit on the depth of the call stack is not. *)
Inductive Completion (A : Type) : Type :=
| Returned (a : A)
| Threw (a : A)
| Unfinished.

Arguments Returned {A}.
Arguments Threw {A}.
Arguments Unfinished {A}.

Section Methods.

Variable Internal : Type.
Variable CollisionsEpsilon : float.
Variable resetBookkeeping :
  Vector3.t -> Vector3.t -> float -> Collider.t Internal -> Internal.
Variable narrowPhase :
  AbstractMesh.t -> Collider.t Internal ->
  bool * option AbstractMesh.t * Internal.
Variable response :
  Vector3.t -> Vector3.t -> bool -> Collider.t Internal ->
  Vector3.t * Vector3.t * Internal.

(** [(excludedMesh && excludedMesh.surroundingMeshes) || this._scene.meshes]:
    [this._scene] is only read when the left operand is falsy; [None] is the
    TypeError of reading [meshes] of an unassigned [_scene]. *)
Definition meshesFor (scene : option Scene)
           (excludedMesh : option AbstractMesh.t)
  : option (list AbstractMesh.t) :=
  match excludedMesh with
  | Some m =>
      match AbstractMesh.surroundingMeshes m with
      | Some l => Some l
      | None => option_map meshes scene
      end
  | None => option_map meshes scene
  end.

(** [_collideWithWorld] with [this._scene] as the object holds it. *)
Fixpoint _collideWithWorld (fuel : nat) (scene : option Scene)
         (s : State Internal) (maximumRetry : Z) (slideOnCollide : bool)
         (excludedMesh : option AbstractMesh.t)
  : Completion (State Internal) :=
  match fuel with
  | O => Unfinished
  | S fuel' =>
      if Collider._retry (collider s) >=? maximumRetry then
        Returned (set_finalPosition (Vector3.copyFrom (position s)) s)
      else
        let collisionMask := effectiveMask excludedMesh (collider s) in
        let s0 :=
          _initialize Internal resetBookkeeping
                      (closeDistance CollisionsEpsilon) s in
        match meshesFor scene excludedMesh with
        | None => Threw s0
        | Some candidates =>
            let s1 :=
              checkMeshes Internal narrowPhase collisionMask excludedMesh
                          candidates s0 in
            if negb (Collider.collisionFound (collider s1)) then
              Returned (set_finalPosition
                          (Vector3.addToRef (position s1) (velocity s1)) s1)
            else
              let s2 := respond Internal response slideOnCollide s1 in
              if (Vector3.length (velocity s2)
                    <=? closeDistance CollisionsEpsilon)%float then
                Returned (set_finalPosition (Vector3.copyFrom (position s2)) s2)
              else
                _collideWithWorld fuel' scene (incr_retry s2) maximumRetry
                                  slideOnCollide excludedMesh
        end
  end.

(** [getNewPosition] on the object [this]. *)
Definition getNewPosition (fuel : nat) (this : t)
           (position displacement : Vector3.t) (c : Collider.t Internal)
           (maximumRetry : Z) (excludedMesh : option AbstractMesh.t)
           (collisionIndex : Z) (slideOnCollide : bool)
  : Completion (State Internal) :=
  match _collideWithWorld fuel (_scene this)
          (enterSweep (_finalPosition this) position displacement c)
          maximumRetry slideOnCollide excludedMesh with
  | Unfinished => Unfinished
  | Threw s => Threw s
  | Returned s =>
      let s' := set_finalPosition
                  (Vector3.multiplyInPlace (finalPosition s)
                     (Collider._radius (collider s))) s in
      Returned (emit (EvCallback collisionIndex (finalPosition s')
                        (Collider.collidedMesh (collider s'))) s')
  end.

(** The object once the call is over: the scratch vectors are what the call
    left in them. *)
Definition after (this : t) (s : State Internal) : t :=
  mk (_scene this) (position s) (velocity s) (finalPosition s).

End Methods.

End DefaultCollisionCoordinator.

(** ** More of the reference world

    Bodies that are meshes of the scene themselves, a collider whose mask
    has no bit set, and the coordinator object over the reference world. *)
Module Bodies.

(** A mesh that moves and carries the ground as its surrounding list. *)
Definition rover : AbstractMesh.t :=
  AbstractMesh.mk 2 true true (Some [subMesh]) (-1) (-1)
    (Some [PlaneWorld.ground]).

(** A mesh that moves and has no surrounding list. *)
Definition drifter : AbstractMesh.t :=
  AbstractMesh.mk 3 true true (Some [subMesh]) (-1) (-1) None.

(** A scene in which the drifter itself is registered beside the ground. *)
Definition yard : Scene := {| meshes := [drifter; PlaneWorld.ground] |}.

(** A collider with an empty collision mask. *)
Definition ghost : Collider.t PlaneWorld.Bookkeeping :=
  Collider.mk PlaneWorld.unitRadius 0 Vector3.Zero Vector3.Zero false None 0
    (PlaneWorld.mkBookkeeping Vector3.Zero Vector3.Zero 0).

(** A collider as an earlier colliding call left it. *)
Definition used : Collider.t PlaneWorld.Bookkeeping :=
  Collider.mk PlaneWorld.unitRadius 1 (Vector3.mk 1 0 0) (Vector3.mk 0 2 0)
    true (Some PlaneWorld.ground) (-1)
    (PlaneWorld.mkBookkeeping (Vector3.mk 0 2 0) (Vector3.mk 1 (-3) 0) 0).

Definition getNewPosition :=
  DefaultCollisionCoordinator.getNewPosition PlaneWorld.Bookkeeping
    PlaneWorld.CollisionsEpsilon PlaneWorld.reset PlaneWorld.narrow
    PlaneWorld.slide.

(** A coordinator fresh from the factory, and one bound to the world. *)
Definition fresh : DefaultCollisionCoordinator.t :=
  DefaultCollisionCoordinator.create.

Definition bound : DefaultCollisionCoordinator.t :=
  DefaultCollisionCoordinator.init PlaneWorld.world
    DefaultCollisionCoordinator.create.

End Bodies.

(** ** The budget as a number

    [maximumRetry] is a JavaScript number, [collider._retry] a counter that
    starts at 0 and grows by one: an integer, held exactly by a number as
    long as it stays below [2^53].  [reaches retry maximumRetry] is the test
    [collider._retry >= maximumRetry] of the sweep, decided on the exact
    value of the number: never true against NaN or +Infinity, always true
    against -Infinity, and against a finite [m * 2^e] a comparison of
    integers. *)
Definition reaches (retry : Z) (maximumRetry : float) : bool :=
  match Prim2SF maximumRetry with
  | S754_nan => false
  | S754_infinity negative => negative
  | S754_zero _ => 0 <=? retry
  | S754_finite negative m e =>
      let v := if negative then Z.neg m else Z.pos m in
      if 0 <=? e then v * 2 ^ e <=? retry else v <=? retry * 2 ^ (- e)
  end.

(** The least integer a counter must reach to meet the budget, if there is
    one: the ceiling of a finite budget (a counter that starts at 0 meets
    -Infinity at once); none for NaN and +Infinity. *)
Definition integerBudget (maximumRetry : float) : option Z :=
  match Prim2SF maximumRetry with
  | S754_nan => None
  | S754_infinity negative => if negative then Some 0 else None
  | S754_zero _ => Some 0
  | S754_finite negative m e =>
      let v := if negative then Z.neg m else Z.pos m in
      Some (if 0 <=? e then v * 2 ^ e else - ((- v) / 2 ^ (- e)))
  end.

(** The counter as the number the engine holds. *)
Definition counterNumber (retry : Z) : float :=
  PrimFloat.of_uint63 (Uint63.of_Z retry).

(** [_collideWithWorld] and [getNewPosition] with [maximumRetry] as the
    number the TypeScript signature takes.  The body is that of the sweep
    above, with the budget test on the number.  The counter stays in [Z]:
    this is the engine's counter as long as it does not pass [2^53], where
    [_retry++] stops being exact; the theorems about this model ask that of
    the budget. *)
Module NumberBudget.

Section Methods.

Variable Internal : Type.
Variable CollisionsEpsilon : float.
Variable resetBookkeeping :
  Vector3.t -> Vector3.t -> float -> Collider.t Internal -> Internal.
Variable narrowPhase :
  AbstractMesh.t -> Collider.t Internal ->
  bool * option AbstractMesh.t * Internal.
Variable response :
  Vector3.t -> Vector3.t -> bool -> Collider.t Internal ->
  Vector3.t * Vector3.t * Internal.

Fixpoint _collideWithWorld (fuel : nat) (scene : Scene)
         (s : State Internal) (maximumRetry : float) (slideOnCollide : bool)
         (excludedMesh : option AbstractMesh.t) : option (State Internal) :=
  match fuel with
  | O => None
  | S fuel' =>
      if reaches (Collider._retry (collider s)) maximumRetry then
        Some (set_finalPosition (Vector3.copyFrom (position s)) s)
      else
        let s1 :=
          sweepIteration Internal CollisionsEpsilon resetBookkeeping
                         narrowPhase scene excludedMesh s in
        if negb (Collider.collisionFound (collider s1)) then
          Some (set_finalPosition
                  (Vector3.addToRef (position s1) (velocity s1)) s1)
        else
          let s2 := respond Internal response slideOnCollide s1 in
          if (Vector3.length (velocity s2)
                <=? closeDistance CollisionsEpsilon)%float then
            Some (set_finalPosition (Vector3.copyFrom (position s2)) s2)
          else
            _collideWithWorld fuel' scene (incr_retry s2) maximumRetry
                              slideOnCollide excludedMesh
  end.

Definition getNewPosition (fuel : nat) (scene : Scene)
           (previous position displacement : Vector3.t)
           (c : Collider.t Internal) (maximumRetry : float)
           (excludedMesh : option AbstractMesh.t) (collisionIndex : Z)
           (slideOnCollide : bool) : option (State Internal) :=
  match _collideWithWorld fuel scene
          (enterSweep previous position displacement c)
          maximumRetry slideOnCollide excludedMesh with
  | None => None
  | Some s =>
      let s' := set_finalPosition
                  (Vector3.multiplyInPlace (finalPosition s)
                     (Collider._radius (collider s))) s in
      Some (emit (EvCallback collisionIndex (finalPosition s')
                    (Collider.collidedMesh (collider s'))) s')
  end.

End Methods.

End NumberBudget.

(** ** Further fixtures *)
Module Fixtures.

(** A mesh whose [subMeshes] array is there but empty. *)
Definition hollow : AbstractMesh.t :=
  AbstractMesh.mk 13 true true (Some []) (-1) (-1) None.

Definition hall : Scene := {| meshes := [hollow] |}.

(** A wall the centre of the unit sphere cannot pass beyond [x = 5], with a
    response that moves the position: it carries the body to the wall and
    turns what is left of the motion back. *)
Definition wallNarrow (m : AbstractMesh.t)
           (c : Collider.t PlaneWorld.Bookkeeping)
  : bool * option AbstractMesh.t * PlaneWorld.Bookkeeping :=
  let b := Collider.internal c in
  if (5 <? Vector3.x (PlaneWorld.basePoint b)
           + Vector3.x (PlaneWorld.sweepVelocity b))%float
  then (true, Some m, b)
  else (Collider.collisionFound c, Collider.collidedMesh c, b).

Definition rebound (p v : Vector3.t) (slideOnCollide : bool)
           (c : Collider.t PlaneWorld.Bookkeeping)
  : Vector3.t * Vector3.t * PlaneWorld.Bookkeeping :=
  (Vector3.mk 5 (Vector3.y p) (Vector3.z p),
   Vector3.mk (5 - (Vector3.x p + Vector3.x v)) 0 0,
   Collider.internal c).

Definition wallGetNewPosition :=
  getNewPosition PlaneWorld.Bookkeeping PlaneWorld.CollisionsEpsilon
    PlaneWorld.reset wallNarrow rebound.

(** The coordinator over the reference world, with a number as budget. *)
Definition numberGetNewPosition :=
  NumberBudget.getNewPosition PlaneWorld.Bookkeeping
    PlaneWorld.CollisionsEpsilon PlaneWorld.reset PlaneWorld.narrow
    PlaneWorld.slide.

(** A ball resting in contact with the ground, half a unit above it, asked
    to move along it. *)
Definition resting : State PlaneWorld.Bookkeeping :=
  enterSweep Vector3.Zero (Vector3.mk 0 0.5 0) (Vector3.mk 1 0 0)
             (PlaneWorld.ball PlaneWorld.unitRadius).

End Fixtures.

(** ** Events a sweep may issue

    The shape of every call a sweep makes under a given threshold, candidate
    list, mask, excluded mesh and slide flag. *)
Definition expectedEvent (threshold : float)
           (candidateMeshes : list AbstractMesh.t) (mask : Z)
           (excludedMesh : option AbstractMesh.t) (slideOnCollide : bool)
           (e : Event) : Prop :=
  match e with
  | EvInitialize _ _ e' => e' = threshold
  | EvCheckCollision m =>
      In m candidateMeshes /\ shouldCheck mask excludedMesh m = true
  | EvGetResponse _ v slide =>
      Vector3.isNonZero v = true /\ slide = slideOnCollide
  | EvCallback _ _ _ => False
  end.

(** The calls to [_getResponse] in a trace. *)
Definition isResponse (e : Event) : bool :=
  match e with EvGetResponse _ _ _ => true | _ => false end.

(** Length of the displacement from [start] to [final]. *)
Definition displacementMagnitude (final start : Vector3.t) : float :=
  Vector3.length (Vector3.subtract final start).

(** ** The sweep as a relation

    [Resolves maximumRetry s s']: started in [s], the sweep ends in [s'].
    One constructor per way out of [_collideWithWorld], and one for the
    recursive call. *)
Section Resolution.

Variable Internal : Type.
Variable CollisionsEpsilon : float.
Variable resetBookkeeping :
  Vector3.t -> Vector3.t -> float -> Collider.t Internal -> Internal.
Variable narrowPhase :
  AbstractMesh.t -> Collider.t Internal ->
  bool * option AbstractMesh.t * Internal.
Variable response :
  Vector3.t -> Vector3.t -> bool -> Collider.t Internal ->
  Vector3.t * Vector3.t * Internal.

Variable scene : Scene.
Variable slideOnCollide : bool.
Variable excludedMesh : option AbstractMesh.t.

(** Short names for the coordinator's functions at the collaborators, scene,
    slide flag and excluded mesh of this section: [collide] is
    [_collideWithWorld], [getPosition] is [getNewPosition], [iteration] is
    [sweepIteration], [reaction] is [respond], [meshLoop] is [checkMeshes]
    and [threshold] is [closeDistance]. *)
Local Abbreviation State := (State Internal).
Local Abbreviation iteration :=
  (sweepIteration Internal CollisionsEpsilon resetBookkeeping narrowPhase
     scene excludedMesh).
Local Abbreviation reaction := (respond Internal response slideOnCollide).
Local Abbreviation threshold := (closeDistance CollisionsEpsilon).
Local Abbreviation meshLoop := (checkMeshes Internal narrowPhase).
Local Abbreviation collide :=
  (_collideWithWorld Internal CollisionsEpsilon resetBookkeeping narrowPhase
     response).
Local Abbreviation getPosition :=
  (getNewPosition Internal CollisionsEpsilon resetBookkeeping narrowPhase
     response).
Local Abbreviation numCollide :=
  (NumberBudget._collideWithWorld Internal CollisionsEpsilon resetBookkeeping
     narrowPhase response).
Local Abbreviation numGetPosition :=
  (NumberBudget.getNewPosition Internal CollisionsEpsilon resetBookkeeping
     narrowPhase response).

(** The narrow-phase tests of one mesh loop report no collision: each test
    that the loop runs, on the collider as it stands at that point of the
    loop, returns no contact and leaves the collided mesh as it was. *)
Fixpoint testsReportNothing (mask : Z) (l : list AbstractMesh.t)
         (s : State) : Prop :=
  match l with
  | [] => True
  | m :: rest =>
      if shouldCheck mask excludedMesh m then
        fst (fst (narrowPhase m (collider s))) = false /\
        snd (fst (narrowPhase m (collider s)))
          = Collider.collidedMesh (collider s) /\
        testsReportNothing mask rest (_checkCollision Internal narrowPhase m s)
      else testsReportNothing mask rest s
  end.

(** The same for the iteration that starts in [s]: the tests that follow
    the reset of the collider report no collision. *)
Definition sweepReportsNothing (s : State) : Prop :=
  testsReportNothing (effectiveMask excludedMesh (collider s))
    (candidates scene excludedMesh)
    (_initialize Internal resetBookkeeping threshold s).

Inductive Resolves (maximumRetry : Z) : State -> State -> Prop :=
| Resolves_budget (s : State) :
    maximumRetry <= Collider._retry (collider s) ->
    Resolves maximumRetry s (set_finalPosition (position s) s)
| Resolves_free (s : State) :
    Collider._retry (collider s) < maximumRetry ->
    Collider.collisionFound (collider (iteration s)) = false ->
    Resolves maximumRetry s
      (set_finalPosition
         (Vector3.addToRef (position (iteration s))
                           (velocity (iteration s)))
         (iteration s))
| Resolves_rest (s : State) :
    Collider._retry (collider s) < maximumRetry ->
    Collider.collisionFound (collider (iteration s)) = true ->
    (Vector3.length (velocity (reaction (iteration s)))
       <=? threshold)%float = true ->
    Resolves maximumRetry s
      (set_finalPosition (position (reaction (iteration s)))
         (reaction (iteration s)))
| Resolves_retry (s s' : State) :
    Collider._retry (collider s) < maximumRetry ->
    Collider.collisionFound (collider (iteration s)) = true ->
    (Vector3.length (velocity (reaction (iteration s)))
       <=? threshold)%float = false ->
    Resolves maximumRetry (incr_retry (reaction (iteration s))) s' ->
    Resolves maximumRetry s s'.

(** ** What each step leaves alone *)

Lemma sweeps_app (l l' : list Event) :
  sweeps (l ++ l') = (sweeps l + sweeps l')%nat.
Proof. unfold sweeps. now rewrite filter_app, length_app. Qed.

Lemma sweeps_checks (l : list AbstractMesh.t) :
  sweeps (map EvCheckCollision l) = 0%nat.
Proof. induction l as [|m l IH]; [reflexivity | exact IH]. Qed.

Lemma callbacks_checks (l : list AbstractMesh.t) :
  filter isCallback (map EvCheckCollision l) = [].
Proof. induction l as [|m l IH]; [reflexivity | exact IH]. Qed.

Lemma testedMeshes_app (l l' : list Event) :
  testedMeshes (l ++ l') = testedMeshes l ++ testedMeshes l'.
Proof.
  induction l as [|e l IH]; [reflexivity|].
  destruct e; simpl; rewrite IH; reflexivity.
Qed.

Lemma testedMeshes_checks (l : list AbstractMesh.t) :
  testedMeshes (map EvCheckCollision l) = l.
Proof. induction l as [|m l IH]; simpl; [|rewrite IH]; reflexivity. Qed.

(** The mesh loop touches the collider's contact fields and the trace only. *)
Lemma checkMeshes_frame (mask : Z) (l : list AbstractMesh.t) (s : State) :
  let s' := meshLoop mask excludedMesh l s in
  position s' = position s /\ velocity s' = velocity s /\
  finalPosition s' = finalPosition s /\
  Collider._retry (collider s') = Collider._retry (collider s) /\
  Collider._radius (collider s') = Collider._radius (collider s) /\
  trace s' =
    trace s ++ map EvCheckCollision (filter (shouldCheck mask excludedMesh) l).
Proof.
  revert s. induction l as [|m l IH]; intros s; simpl.
  - rewrite app_nil_r. repeat split.
  - destruct (shouldCheck mask excludedMesh m) eqn:Hm.
    + specialize (IH (_checkCollision Internal narrowPhase m s)).
      simpl in IH. destruct IH as (Hp & Hv & Hf & Hr & Hrad & Ht).
      rewrite Hp, Hv, Hf, Hr, Hrad, Ht. unfold _checkCollision.
      destruct (narrowPhase m (collider s)) as [[found hit] st]. simpl.
      rewrite <- app_assoc. repeat split.
    + apply IH.
Qed.

Lemma sweepIteration_frame (s : State) :
  let s' := iteration s in
  position s' = position s /\ velocity s' = velocity s /\
  finalPosition s' = finalPosition s /\
  Collider._retry (collider s') = Collider._retry (collider s) /\
  Collider._radius (collider s') = Collider._radius (collider s) /\
  trace s' =
    trace s ++
    EvInitialize (position s) (velocity s) threshold
    :: map EvCheckCollision
         (filter (shouldCheck (effectiveMask excludedMesh (collider s))
                              excludedMesh)
                 (candidates scene excludedMesh)).
Proof.
  unfold sweepIteration.
  destruct (checkMeshes_frame
              (effectiveMask excludedMesh (collider s))
              (candidates scene excludedMesh)
              (_initialize Internal resetBookkeeping threshold s))
    as (Hp & Hv & Hf & Hr & Hrad & Ht).
  simpl. rewrite Hp, Hv, Hf, Hr, Hrad, Ht. simpl.
  rewrite <- app_assoc. repeat split.
Qed.

Lemma respond_frame (s : State) :
  let s' := reaction s in
  finalPosition s' = finalPosition s /\
  Collider._retry (collider s') = Collider._retry (collider s) /\
  Collider._radius (collider s') = Collider._radius (collider s) /\
  Collider.collisionFound (collider s') = Collider.collisionFound (collider s) /\
  Collider.collidedMesh (collider s') = Collider.collidedMesh (collider s) /\
  trace s' =
    trace s ++
    (if Vector3.isNonZero (velocity s)
     then [EvGetResponse (position s) (velocity s) slideOnCollide]
     else []).
Proof.
  unfold respond, _getResponse.
  destruct (Vector3.isNonZero (velocity s)); simpl.
  - destruct (response (position s) (velocity s) slideOnCollide (collider s))
      as [[p v] st].
    destruct slideOnCollide; simpl; repeat split.
  - rewrite app_nil_r. repeat split.
Qed.

(** ** The function and the relation agree *)

Lemma collide_sound (fuel : nat) (maximumRetry : Z) (s s' : State) :
  collide fuel scene s maximumRetry slideOnCollide excludedMesh = Some s' ->
  Resolves maximumRetry s s'.
Proof.
  revert s. induction fuel as [|fuel IH]; intros s; simpl; [discriminate|].
  destruct (Z.geb_spec (Collider._retry (collider s)) maximumRetry) as [Hb|Hb].
  - intros [= <-]. now apply Resolves_budget.
  - destruct (Collider.collisionFound (collider (iteration s))) eqn:Hf;
      simpl.
    + destruct (Vector3.length (velocity (reaction (iteration s)))
                  <=? threshold)%float eqn:Hl.
      * intros [= <-]. now apply Resolves_rest.
      * intros H. eapply Resolves_retry; eauto.
    + intros [= <-]. now apply Resolves_free.
Qed.

(** The recursion of [_collideWithWorld] is at most
    [maximumRetry - collider._retry] calls deep. *)
Lemma collide_total (fuel : nat) (maximumRetry : Z) (s : State) :
  (Z.to_nat (maximumRetry - Collider._retry (collider s)) < fuel)%nat ->
  exists s',
    collide fuel scene s maximumRetry slideOnCollide excludedMesh = Some s'.
Proof.
  revert s. induction fuel as [|fuel IH]; intros s Hfuel; [lia|]. simpl.
  destruct (Z.geb_spec (Collider._retry (collider s)) maximumRetry) as [Hb|Hb];
    [eauto|].
  destruct (Collider.collisionFound (collider (iteration s))); simpl;
    [|eauto].
  destruct (Vector3.length (velocity (reaction (iteration s)))
              <=? threshold)%float; [eauto|].
  apply IH. simpl.
  destruct (respond_frame (iteration s)) as (_ & Hr & _).
  destruct (sweepIteration_frame s) as (_ & _ & _ & Hr' & _).
  simpl in Hr, Hr'. rewrite Hr, Hr'. lia.
Qed.

Lemma Resolves_deterministic (maximumRetry : Z) (s s1 s2 : State) :
  Resolves maximumRetry s s1 -> Resolves maximumRetry s s2 -> s1 = s2.
Proof.
  intros H1. revert s2.
  induction H1 as [s Hb|s Hb Hf|s Hb Hf Hl|s s' Hb Hf Hl Hrec IH];
    intros s2 H2; inversion H2; subst; try reflexivity; try lia;
    try congruence.
  now apply IH.
Qed.

(** ** Invariants of a sweep *)

(** Nothing but the sweep's own bookkeeping is touched: the radius is kept,
    no callback is issued, every recursive call comes with exactly one more
    retry and one more mesh loop, and the mesh loops stay within the budget. *)
Lemma Resolves_invariants (maximumRetry : Z) (s s' : State) :
  Resolves maximumRetry s s' ->
  Collider._radius (collider s') = Collider._radius (collider s) /\
  filter isCallback (trace s') = filter isCallback (trace s) /\
  Collider._retry (collider s) <= Collider._retry (collider s') /\
  Collider._retry (collider s') - Collider._retry (collider s)
    <= Z.of_nat (sweeps (trace s')) - Z.of_nat (sweeps (trace s))
    <= Collider._retry (collider s') - Collider._retry (collider s) + 1 /\
  Z.of_nat (sweeps (trace s')) - Z.of_nat (sweeps (trace s))
    <= Z.max 0 (maximumRetry - Collider._retry (collider s)).
Proof.
  assert (Hstep : forall s0 : State,
    let s1 := reaction (iteration s0) in
    Collider._radius (collider s1) = Collider._radius (collider s0) /\
    filter isCallback (trace s1) = filter isCallback (trace s0) /\
    Collider._retry (collider s1) = Collider._retry (collider s0) /\
    sweeps (trace s1) = S (sweeps (trace s0))).
  { intros s0.
    destruct (respond_frame (iteration s0))
      as (_ & Hr & Hrad & _ & _ & Ht).
    destruct (sweepIteration_frame s0) as (_ & _ & _ & Hr' & Hrad' & Ht').
    simpl in *. rewrite Hr, Hrad, Ht, Hr', Hrad', Ht'.
    rewrite !filter_app, !sweeps_app. simpl.
    rewrite callbacks_checks. change (sweeps (?e :: ?l)) with
      (if isSweep e then S (sweeps l) else sweeps l). simpl.
    rewrite sweeps_checks.
    destruct (Vector3.isNonZero (velocity (iteration s0))); simpl;
      rewrite !app_nil_r; repeat split; unfold sweeps; simpl; lia. }
  assert (Hloop : forall s0 : State,
    let s1 := iteration s0 in
    Collider._radius (collider s1) = Collider._radius (collider s0) /\
    filter isCallback (trace s1) = filter isCallback (trace s0) /\
    Collider._retry (collider s1) = Collider._retry (collider s0) /\
    sweeps (trace s1) = S (sweeps (trace s0))).
  { intros s0.
    destruct (sweepIteration_frame s0) as (_ & _ & _ & Hr' & Hrad' & Ht').
    simpl in *. rewrite Hr', Hrad', Ht'.
    rewrite !filter_app, !sweeps_app. simpl.
    rewrite callbacks_checks. change (sweeps (?e :: ?l)) with
      (if isSweep e then S (sweeps l) else sweeps l). simpl.
    rewrite sweeps_checks, app_nil_r. repeat split; lia. }
  induction 1 as [s Hb|s Hb Hf|s Hb Hf Hl|s s' Hb Hf Hl Hrec IH]; simpl.
  - repeat split; lia.
  - destruct (Hloop s) as (Hrad & Hcb & Hr & Hsw). simpl in *.
    rewrite Hrad, Hcb, Hr, Hsw. repeat split; lia.
  - destruct (Hstep s) as (Hrad & Hcb & Hr & Hsw). simpl in *.
    rewrite Hrad, Hcb, Hr, Hsw. repeat split; lia.
  - destruct (Hstep s) as (Hrad & Hcb & Hr & Hsw). simpl in *.
    destruct IH as (IHrad & IHcb & IHr & IHsw & IHmax). simpl in *.
    rewrite Hrad, Hcb, Hr, Hsw in *. repeat split; try congruence; lia.
Qed.

(** ** One iteration at a time *)

Lemma collide_free (fuel : nat) (maximumRetry : Z) (s : State) :
  Collider._retry (collider s) < maximumRetry ->
  Collider.collisionFound (collider (iteration s)) = false ->
  collide (S fuel) scene s maximumRetry slideOnCollide excludedMesh =
  Some (set_finalPosition
          (Vector3.addToRef (position (iteration s)) (velocity (iteration s)))
          (iteration s)).
Proof.
  intros Hb Hf. simpl.
  destruct (Z.geb_spec (Collider._retry (collider s)) maximumRetry); [lia|].
  now rewrite Hf.
Qed.

Lemma collide_rest (fuel : nat) (maximumRetry : Z) (s : State) :
  Collider._retry (collider s) < maximumRetry ->
  Collider.collisionFound (collider (iteration s)) = true ->
  (Vector3.length (velocity (reaction (iteration s))) <=? threshold)%float
    = true ->
  collide (S fuel) scene s maximumRetry slideOnCollide excludedMesh =
  Some (set_finalPosition (position (reaction (iteration s)))
          (reaction (iteration s))).
Proof.
  intros Hb Hf Hl. simpl.
  destruct (Z.geb_spec (Collider._retry (collider s)) maximumRetry); [lia|].
  rewrite Hf. simpl. now rewrite Hl.
Qed.


(** ** [getNewPosition] *)

(** With enough fuel for the retry budget [getNewPosition] returns: it runs
    the sweep to its end, scales the result back by the radius and issues the
    callback. *)
Lemma getPosition_returns (fuel : nat)
      (previous origin displacement : Vector3.t) (c : Collider.t Internal)
      (maximumRetry collisionIndex : Z) :
  (Z.to_nat maximumRetry < fuel)%nat ->
  exists sw : State,
    collide fuel scene (enterSweep previous origin displacement c)
            maximumRetry slideOnCollide excludedMesh = Some sw /\
    Resolves maximumRetry (enterSweep previous origin displacement c) sw /\
    getPosition fuel scene previous origin displacement c maximumRetry
                excludedMesh collisionIndex slideOnCollide =
    Some (emit (EvCallback collisionIndex
                  (Vector3.multiplyInPlace (finalPosition sw)
                                           (Collider._radius c))
                  (Collider.collidedMesh (collider sw)))
            (set_finalPosition
               (Vector3.multiplyInPlace (finalPosition sw)
                                        (Collider._radius c)) sw)).
Proof.
  intros Hfuel.
  destruct (collide_total fuel maximumRetry
              (enterSweep previous origin displacement c)) as [sw Hsw].
  { simpl. now rewrite Z.sub_0_r. }
  exists sw. split; [exact Hsw|].
  pose proof (collide_sound _ _ _ _ Hsw) as Hres.
  split; [exact Hres|].
  unfold getNewPosition. rewrite Hsw.
  destruct (Resolves_invariants _ _ _ Hres) as (Hrad & _). simpl in Hrad.
  simpl. now rewrite Hrad.
Qed.

(** The budget test comes first: once [collider._retry] has reached
    [maximumRetry] the sweep stops where it stands and calls nobody. *)
Lemma collide_budget_first (fuel : nat) (maximumRetry : Z) (s : State) :
  maximumRetry <= Collider._retry (collider s) ->
  collide (S fuel) scene s maximumRetry slideOnCollide excludedMesh =
  Some (set_finalPosition (position s) s).
Proof.
  intros Hb. simpl.
  destruct (Z.geb_spec (Collider._retry (collider s)) maximumRetry);
    [reflexivity | lia].
Qed.

(** [getNewPosition] on an exhausted budget, in full. *)
Lemma getPosition_zero_budget (fuel : nat)
      (previous origin displacement : Vector3.t) (c : Collider.t Internal)
      (collisionIndex : Z) :
  let start := Vector3.divideToRef origin (Collider._radius c) in
  let final := Vector3.multiplyInPlace start (Collider._radius c) in
  getPosition (S fuel) scene previous origin displacement c 0
              excludedMesh collisionIndex slideOnCollide =
  Some (emit (EvCallback collisionIndex final None)
          (set_finalPosition final
             (set_finalPosition start
                (enterSweep previous origin displacement c)))).
Proof.
  unfold getNewPosition. rewrite collide_budget_first by (simpl; lia).
  reflexivity.
Qed.

(** Integer budgets.  For every scene, collider, position, displacement,
    excluded mesh and slide flag, [getNewPosition] returns as soon as the
    unrolling allows one call more than the budget; the result carries at
    most that many mesh loops, and the number of mesh loops is the final
    [_retry] or one more. *)
Theorem collideWithWorld_terminates (fuel : nat)
        (previous origin displacement : Vector3.t)
        (c : Collider.t Internal) (maximumRetry collisionIndex : Z) :
  (Z.to_nat maximumRetry < fuel)%nat ->
  exists s : State,
    getPosition fuel scene previous origin displacement c maximumRetry
                excludedMesh collisionIndex slideOnCollide = Some s /\
    (sweeps (trace s) <= Z.to_nat maximumRetry)%nat /\
    Collider._retry (collider s) <= Z.of_nat (sweeps (trace s))
      <= Collider._retry (collider s) + 1.
Proof.
  intros Hfuel.
  destruct (getPosition_returns fuel previous origin displacement c
              maximumRetry collisionIndex Hfuel) as (sw & _ & Hres & Hget).
  eexists. split; [exact Hget|].
  destruct (Resolves_invariants _ _ _ Hres) as (_ & _ & Hr & Hsw & Hmax).
  simpl in *. rewrite sweeps_app. simpl.
  change (sweeps []) with 0%nat in *.
  change (sweeps [EvCallback _ _ _]) with 0%nat. lia.
Qed.

(** ** The mesh loop *)

Lemma shouldCheck_iff (mask : Z) (m : AbstractMesh.t) :
  shouldCheck mask excludedMesh m = true <->
  AbstractMesh.isEnabled m = true /\
  AbstractMesh.checkCollisions m = true /\
  AbstractMesh.subMeshes m <> None /\
  (forall e, excludedMesh = Some e ->
             AbstractMesh.uniqueId m <> AbstractMesh.uniqueId e) /\
  bitAnd mask (AbstractMesh.collisionGroup m) <> 0.
Proof.
  unfold shouldCheck, AbstractMesh.differs.
  rewrite !andb_true_iff, negb_true_iff, Z.eqb_neq.
  destruct (AbstractMesh.subMeshes m) as [subs|];
    destruct excludedMesh as [e|]; split.
  - intros ((((He & Hc) & _) & Hd) & Hm).
    apply negb_true_iff, Z.eqb_neq in Hd.
    repeat split; auto; [discriminate | now intros e' [= <-]].
  - intros (He & Hc & _ & Hd & Hm). repeat split; auto.
    apply negb_true_iff, Z.eqb_neq. now apply Hd.
  - intros ((((He & Hc) & _) & _) & Hm).
    repeat split; auto; discriminate.
  - intros (He & Hc & _ & _ & Hm). repeat split; auto.
  - intros ((((_ & _) & Hs) & _) & _). discriminate.
  - intros (_ & _ & Hs & _). now contradiction Hs.
  - intros ((((_ & _) & Hs) & _) & _). discriminate.
  - intros (_ & _ & Hs & _). now contradiction Hs.
Qed.

(** C4 (amended): which meshes reach the narrow phase.  In a sweep
    iteration started in state [s] the meshes handed to [_checkCollision]
    are, in order and once per occurrence, the members of the candidate set
    that pass the guard.  The candidate set is
    [excludedMesh.surroundingMeshes] when there is an excluded mesh and it
    has such a list, and [scene.meshes] otherwise.  A mesh passes the guard
    exactly when it is enabled, has [checkCollisions] set, has a [subMeshes]
    array (an empty array counts), is not the excluded mesh, and shares a
    bit with the effective mask in JavaScript's 32-bit [&]; the effective
    mask is [excludedMesh.collisionMask] when there is an excluded mesh and
    [collider.collisionMask] otherwise. *)
Theorem narrow_phase_candidates (s : State) :
  let int32 := fun n : Z => (n + 2 ^ 31) mod 2 ^ 32 - 2 ^ 31 in
  let mask :=
    match excludedMesh with
    | Some e => AbstractMesh.collisionMask e
    | None => Collider.collisionMask (collider s)
    end in
  let pool :=
    match excludedMesh with
    | Some e =>
        match AbstractMesh.surroundingMeshes e with
        | Some l => l
        | None => meshes scene
        end
    | None => meshes scene
    end in
  exists tested : list AbstractMesh.t,
    testedMeshes (trace (iteration s)) = testedMeshes (trace s) ++ tested /\
    (exists keep : AbstractMesh.t -> bool, tested = filter keep pool) /\
    forall m : AbstractMesh.t,
      In m tested <->
      In m pool /\
      AbstractMesh.isEnabled m = true /\
      AbstractMesh.checkCollisions m = true /\
      AbstractMesh.subMeshes m <> None /\
      (forall e, excludedMesh = Some e ->
                 AbstractMesh.uniqueId m <> AbstractMesh.uniqueId e) /\
      Z.land (int32 mask) (int32 (AbstractMesh.collisionGroup m)) <> 0.
Proof.
  intros int32 mask pool.
  exists (filter (shouldCheck (effectiveMask excludedMesh (collider s))
                              excludedMesh)
                 (candidates scene excludedMesh)).
  split.
  - destruct (sweepIteration_frame s) as (_ & _ & _ & _ & _ & Ht).
    simpl in Ht. rewrite Ht, testedMeshes_app. simpl.
    now rewrite testedMeshes_checks.
  - split; [eexists; reflexivity|].
    intros m. rewrite filter_In, shouldCheck_iff. reflexivity.
Qed.

(** C5: an iteration that finds no collision ends the sweep at the current
    position plus the current velocity.  [s] is the state at the start of
    any iteration, so its velocity is whatever the earlier iterations left,
    not the displacement first asked for. *)
Theorem no_collision_adds_velocity (fuel : nat) (maximumRetry : Z)
        (s : State) :
  Collider._retry (collider s) < maximumRetry ->
  Collider.collisionFound (collider (iteration s)) = false ->
  exists s' : State,
    collide (S fuel) scene s maximumRetry slideOnCollide excludedMesh
      = Some s' /\
    finalPosition s' = Vector3.addToRef (position s) (velocity s) /\
    position s' = position s /\ velocity s' = velocity s.
Proof.
  intros Hb Hf. eexists. split; [now apply collide_free|].
  destruct (sweepIteration_frame s) as (Hp & Hv & _). simpl in *.
  now rewrite Hp, Hv.
Qed.


(** C10: a zero budget asks nothing of the scene.  With [maximumRetry = 0]
    the only call [getNewPosition] makes is the callback, no mesh is handed
    to the narrow phase, and the callback's collided mesh is null, whatever
    the scene contains. *)
Theorem zero_budget_is_silent (fuel : nat)
        (previous origin displacement : Vector3.t)
        (c : Collider.t Internal) (collisionIndex : Z) :
  exists s : State,
    getPosition (S fuel) scene previous origin displacement c 0
                excludedMesh collisionIndex slideOnCollide = Some s /\
    trace s = [EvCallback collisionIndex (finalPosition s) None] /\
    testedMeshes (trace s) = [] /\
    sweeps (trace s) = 0%nat /\
    Collider.collidedMesh (collider s) = None.
Proof.
  eexists. split; [apply getPosition_zero_budget|]. repeat split.
Qed.

(** C3 (amended): with [maximumRetry = 0] no displacement is applied.  The
    final position is the input position divided by the collider's radius and
    multiplied back by it, axis by axis, whatever the displacement and the
    scene; it is the input position itself exactly when that round trip is
    exact. *)
Theorem zero_budget_position (fuel : nat)
        (previous origin displacement : Vector3.t)
        (c : Collider.t Internal) (collisionIndex : Z) :
  exists s : State,
    getPosition (S fuel) scene previous origin displacement c 0
                excludedMesh collisionIndex slideOnCollide = Some s /\
    finalPosition s =
      Vector3.multiplyInPlace
        (Vector3.divideToRef origin (Collider._radius c))
        (Collider._radius c) /\
    (finalPosition s = origin <->
     Vector3.multiplyInPlace
       (Vector3.divideToRef origin (Collider._radius c))
       (Collider._radius c) = origin).
Proof.
  eexists. split; [apply getPosition_zero_budget|]. simpl.
  split; [reflexivity | tauto].
Qed.

Lemma getPosition_of_sweep (fuel : nat)
      (previous origin displacement : Vector3.t) (c : Collider.t Internal)
      (maximumRetry collisionIndex : Z) (sw : State) :
  collide fuel scene (enterSweep previous origin displacement c)
          maximumRetry slideOnCollide excludedMesh = Some sw ->
  getPosition fuel scene previous origin displacement c maximumRetry
              excludedMesh collisionIndex slideOnCollide =
  Some (emit (EvCallback collisionIndex
                (Vector3.multiplyInPlace (finalPosition sw)
                   (Collider._radius (collider sw)))
                (Collider.collidedMesh (collider sw)))
          (set_finalPosition
             (Vector3.multiplyInPlace (finalPosition sw)
                (Collider._radius (collider sw))) sw)).
Proof. intros Hsw. unfold getNewPosition. now rewrite Hsw. Qed.

Lemma enterSweep_facts (previous origin displacement : Vector3.t)
      (c : Collider.t Internal) :
  let s0 := enterSweep previous origin displacement c in
  position s0 = Vector3.divideToRef origin (Collider._radius c) /\
  velocity s0 = Vector3.divideToRef displacement (Collider._radius c) /\
  trace s0 = [] /\
  Collider._retry (collider s0) = 0 /\
  Collider._radius (collider s0) = Collider._radius c /\
  Collider.collidedMesh (collider s0) = None /\
  effectiveMask excludedMesh (collider s0) = effectiveMask excludedMesh c.
Proof. simpl. repeat split. Qed.

Lemma sweeps_iteration (s : State) :
  sweeps (trace (iteration s)) = S (sweeps (trace s)).
Proof.
  destruct (sweepIteration_frame s) as (_ & _ & _ & _ & _ & Ht).
  simpl in Ht. rewrite Ht, sweeps_app.
  change (sweeps (?e :: ?l)) with (if isSweep e then S (sweeps l) else sweeps l).
  simpl. rewrite sweeps_checks. lia.
Qed.

(** ** Scenes without obstruction *)

Lemma checkMeshes_nothing (mask : Z) (l : list AbstractMesh.t) (s : State) :
  testsReportNothing mask l s ->
  Collider.collisionFound (collider s) = false ->
  Collider.collisionFound (collider (meshLoop mask excludedMesh l s)) = false /\
  Collider.collidedMesh (collider (meshLoop mask excludedMesh l s)) =
    Collider.collidedMesh (collider s).
Proof.
  revert s. induction l as [|m l IH]; intros s Hq Hs; simpl; [now split|].
  simpl in Hq. destruct (shouldCheck mask excludedMesh m); [|now apply IH].
  destruct Hq as (Hfound & Hhit & Hrest).
  destruct (IH _ Hrest) as [IH1 IH2].
  - unfold _checkCollision.
    destruct (narrowPhase m (collider s)) as [[found hit] st]. exact Hfound.
  - rewrite IH1, IH2. split; [reflexivity|].
    unfold _checkCollision.
    destruct (narrowPhase m (collider s)) as [[found hit] st]. exact Hhit.
Qed.

Lemma iteration_nothing (s : State) :
  sweepReportsNothing s ->
  Collider.collisionFound (collider (iteration s)) = false /\
  Collider.collidedMesh (collider (iteration s)) =
    Collider.collidedMesh (collider s).
Proof.
  intros Hquiet. unfold sweepIteration.
  now destruct (checkMeshes_nothing _ _ _ Hquiet eq_refl).
Qed.

(** C2 (amended): the unobstructed move.  When the budget allows at least
    one iteration ([1 <= maximumRetry]) and the narrow-phase tests of the
    call report no collision, the callback receives the sum of the
    normalised position and the normalised displacement, scaled back by the
    radius, and a null collided mesh. *)
Theorem unobstructed_move (fuel : nat)
        (previous origin displacement : Vector3.t)
        (c : Collider.t Internal) (maximumRetry collisionIndex : Z) :
  1 <= maximumRetry ->
  sweepReportsNothing (enterSweep previous origin displacement c) ->
  exists s : State,
    getPosition (S fuel) scene previous origin displacement c maximumRetry
                excludedMesh collisionIndex slideOnCollide = Some s /\
    finalPosition s =
      Vector3.multiplyInPlace
        (Vector3.addToRef
           (Vector3.divideToRef origin (Collider._radius c))
           (Vector3.divideToRef displacement (Collider._radius c)))
        (Collider._radius c) /\
    Collider.collidedMesh (collider s) = None /\
    filter isCallback (trace s) =
      [EvCallback collisionIndex (finalPosition s) None].
Proof.
  intros Hmax Hquiet.
  destruct (enterSweep_facts previous origin displacement c)
    as (Hp0 & Hv0 & Ht0 & Hr0 & Hrad0 & Hhit0 & _).
  pose (s0 := enterSweep previous origin displacement c).
  destruct (iteration_nothing s0 Hquiet) as [Hfound Hhit].
  destruct (sweepIteration_frame s0) as (Hp & Hv & _ & _ & Hrad & Ht).
  subst s0.
  cbv zeta in Hp, Hv, Hrad, Ht.
  eexists. split.
  { apply getPosition_of_sweep. apply collide_free; [simpl; lia | exact Hfound]. }
  cbn [finalPosition collider trace emit set_finalPosition].
  rewrite Hp, Hv, Hrad, Hhit, Ht, Hp0, Hv0, Hrad0, Hhit0, Ht0.
  rewrite !filter_app. cbn [filter isCallback app].
  rewrite callbacks_checks. repeat split.
Qed.

(** ** Zero displacement *)

Lemma zero_div (r : float) : (0 <? r)%float = true -> (0 / r)%float = 0%float.
Proof.
  intros H. apply Prim2SF_inj. rewrite div_spec.
  rewrite ltb_spec in H.
  change (Prim2SF 0) with (S754_zero false) in *.
  destruct (Prim2SF r) as [sg|sg| |sg m e]; simpl in *; try discriminate;
    destruct sg; try discriminate; reflexivity.
Qed.

Lemma divide_zero (r : Vector3.t) :
  Vector3.isPositive r = true ->
  Vector3.divideToRef Vector3.Zero r = Vector3.Zero.
Proof.
  unfold Vector3.isPositive. rewrite !andb_true_iff. intros [[Hx Hy] Hz].
  unfold Vector3.divideToRef, Vector3.Zero. simpl.
  now rewrite !zero_div.
Qed.

Lemma respond_at_rest (s : State) :
  velocity s = Vector3.Zero -> reaction s = s.
Proof.
  intros Hv. unfold respond. rewrite Hv.
  now change (Vector3.isNonZero Vector3.Zero) with false.
Qed.

(** C7 (amended): zero displacement.  When the budget allows at least one
    iteration, the radius is positive and the proximity threshold is not
    negative, a zero displacement makes [getNewPosition] run exactly one
    sweep iteration: the collider is reset, every candidate that passes the
    guard is narrow-phase tested, and the callback follows.  The final
    position is the normalised start scaled back by the radius; when no
    collision is found the (zero) velocity has first been added to it. *)
Theorem zero_displacement_one_sweep (fuel : nat)
        (previous origin : Vector3.t)
        (c : Collider.t Internal) (maximumRetry collisionIndex : Z) :
  1 <= maximumRetry ->
  Vector3.isPositive (Collider._radius c) = true ->
  (0 <=? threshold)%float = true ->
  let start := Vector3.divideToRef origin (Collider._radius c) in
  exists s : State,
    getPosition (S fuel) scene previous origin Vector3.Zero c maximumRetry
                excludedMesh collisionIndex slideOnCollide = Some s /\
    sweeps (trace s) = 1%nat /\
    trace s =
      EvInitialize start Vector3.Zero threshold
      :: map EvCheckCollision
           (filter (shouldCheck (effectiveMask excludedMesh c) excludedMesh)
                   (candidates scene excludedMesh))
      ++ [EvCallback collisionIndex (finalPosition s)
                     (Collider.collidedMesh (collider s))] /\
    finalPosition s =
      Vector3.multiplyInPlace
        (if Collider.collisionFound (collider s)
         then start
         else Vector3.addToRef start Vector3.Zero)
        (Collider._radius c).
Proof.
  intros Hmax Hpos Hthr start.
  destruct (enterSweep_facts previous origin Vector3.Zero c)
    as (Hp0 & Hv0 & Ht0 & Hr0 & Hrad0 & _ & Hmask).
  rewrite (divide_zero _ Hpos) in Hv0. fold start in Hp0.
  pose (s0 := enterSweep previous origin Vector3.Zero c).
  destruct (sweepIteration_frame s0) as (Hp & Hv & _ & _ & Hrad & Ht).
  pose proof (sweeps_iteration s0) as Hsw.
  destruct (Collider.collisionFound (collider (iteration s0))) eqn:Hfound;
    subst s0; cbv zeta in Hp, Hv, Hrad, Ht;
    rewrite Hp0, Hv0, Ht0, Hrad0, Hmask in *.
  - eexists. split.
    { apply getPosition_of_sweep. apply collide_rest; [simpl; lia | exact Hfound |].
      rewrite (respond_at_rest _ Hv), Hv. exact Hthr. }
    rewrite (respond_at_rest _ Hv).
    cbn [finalPosition collider trace emit set_finalPosition].
    rewrite Hfound, Hp, Hrad, sweeps_app, Hsw, Ht. repeat split.
  - eexists. split.
    { apply getPosition_of_sweep. apply collide_free; [simpl; lia | exact Hfound]. }
    cbn [finalPosition collider trace emit set_finalPosition].
    rewrite Hfound, Hp, Hv, Hrad, sweeps_app, Hsw, Ht. repeat split.
Qed.

(** ** Sliding and stopping *)

Lemma eqb_zero (f : float) :
  (f =? 0)%float = true -> f = 0%float \/ f = (-0)%float.
Proof.
  intros H. rewrite eqb_spec in H.
  rewrite <- (SF2Prim_Prim2SF f).
  change (Prim2SF 0) with (S754_zero false) in H.
  destruct (Prim2SF f) as [sg|sg| |sg m e]; try discriminate.
  - destruct sg; [right | left]; reflexivity.
  - destruct sg; discriminate.
  - destruct sg; discriminate.
Qed.

Lemma length_at_rest (v : Vector3.t) :
  Vector3.isNonZero v = false -> Vector3.length v = 0%float.
Proof.
  destruct v as [a b d]. unfold Vector3.isNonZero. simpl.
  rewrite !orb_false_iff, !negb_false_iff. intros [[Ha Hb] Hd].
  destruct (eqb_zero _ Ha) as [-> | ->];
    destruct (eqb_zero _ Hb) as [-> | ->];
    destruct (eqb_zero _ Hd) as [-> | ->]; reflexivity.
Qed.


Lemma respond_stop (s : State) :
  slideOnCollide = false ->
  Vector3.isNonZero (velocity s) = true ->
  velocity (reaction s) = Vector3.setAll 0 /\
  sweeps (trace (reaction s)) = sweeps (trace s).
Proof.
  intros Hs Hnz.
  destruct (respond_frame s) as (_ & _ & _ & _ & _ & Ht). cbv zeta in Ht.
  rewrite Ht, Hnz, sweeps_app. split; [|unfold sweeps; simpl; lia].
  unfold respond. rewrite Hnz, Hs. reflexivity.
Qed.

Lemma incr_retry_frame (s : State) :
  position (incr_retry s) = position s /\
  velocity (incr_retry s) = velocity s /\
  trace (incr_retry s) = trace s /\
  Collider._retry (collider (incr_retry s)) = Collider._retry (collider s) + 1.
Proof. repeat split. Qed.


(** ** The calls of a whole sweep *)

Lemma checkMeshes_mask (mask : Z) (l : list AbstractMesh.t) (s : State) :
  Collider.collisionMask (collider (meshLoop mask excludedMesh l s)) =
  Collider.collisionMask (collider s).
Proof.
  revert s. induction l as [|m l IH]; intros s; simpl; [reflexivity|].
  rewrite IH. destruct (shouldCheck mask excludedMesh m); [|reflexivity].
  unfold _checkCollision.
  now destruct (narrowPhase m (collider s)) as [[found hit] st].
Qed.

Lemma step_mask (s : State) :
  effectiveMask excludedMesh (collider (incr_retry (reaction (iteration s)))) =
  effectiveMask excludedMesh (collider s).
Proof.
  assert (H : Collider.collisionMask
                (collider (incr_retry (reaction (iteration s)))) =
              Collider.collisionMask (collider s)).
  { transitivity (Collider.collisionMask (collider (iteration s))).
    - unfold respond, _getResponse.
      destruct (Vector3.isNonZero (velocity (iteration s))); [|reflexivity].
      destruct (response (position (iteration s)) (velocity (iteration s))
                  slideOnCollide (collider (iteration s))) as [[p v] st].
      now destruct (negb slideOnCollide).
    - unfold sweepIteration. now rewrite checkMeshes_mask. }
  unfold effectiveMask. now rewrite H.
Qed.

Lemma responses_checks (l : list AbstractMesh.t) :
  filter isResponse (map EvCheckCollision l) = [].
Proof. induction l as [|m l IH]; [reflexivity | exact IH]. Qed.

Lemma testedMeshes_length_filter (mask : Z) (l : list AbstractMesh.t) :
  (List.length (filter (shouldCheck mask excludedMesh) l) <= List.length l)%nat.
Proof.
  induction l as [|m l IH]; simpl; [lia|].
  destruct (shouldCheck mask excludedMesh m); simpl; lia.
Qed.

(** What one iteration adds to the trace: one reset, the tests of the
    candidates that pass the guard, and at most one response, asked only for
    a velocity that is not zero. *)
Lemma step_events (s : State) :
  exists loop reply : list Event,
    trace (iteration s) = trace s ++ loop /\
    trace (reaction (iteration s)) = trace s ++ loop ++ reply /\
    Forall (expectedEvent threshold (candidates scene excludedMesh)
              (effectiveMask excludedMesh (collider s)) excludedMesh
              slideOnCollide) (loop ++ reply) /\
    sweeps loop = 1%nat /\ sweeps reply = 0%nat /\
    (List.length (testedMeshes loop)
       <= List.length (candidates scene excludedMesh))%nat /\
    testedMeshes reply = [] /\
    filter isResponse loop = [] /\
    (List.length (filter isResponse reply) <= 1)%nat /\
    filter isCallback (loop ++ reply) = [].
Proof.
  destruct (sweepIteration_frame s) as (_ & Hv & _ & _ & _ & Ht).
  destruct (respond_frame (iteration s)) as (_ & _ & _ & _ & _ & Ht').
  cbv zeta in Hv, Ht, Ht'.
  set (mask := effectiveMask excludedMesh (collider s)) in *.
  set (tested := filter (shouldCheck mask excludedMesh)
                        (candidates scene excludedMesh)) in *.
  exists (EvInitialize (position s) (velocity s) threshold
          :: map EvCheckCollision tested).
  exists (if Vector3.isNonZero (velocity (iteration s))
          then [EvGetResponse (position (iteration s)) (velocity (iteration s))
                              slideOnCollide]
          else []).
  split; [exact Ht|]. split; [now rewrite Ht', Ht, <- app_assoc|].
  assert (Hchecks : Forall (expectedEvent threshold
                              (candidates scene excludedMesh) mask
                              excludedMesh slideOnCollide)
                           (map EvCheckCollision tested)).
  { apply Forall_forall. intros e He. apply in_map_iff in He.
    destruct He as (m & <- & Hm). apply filter_In in Hm. exact Hm. }
  pose proof (responses_checks tested) as Hresp.
  split.
  { apply Forall_app. split; [constructor; [reflexivity | exact Hchecks]|].
    destruct (Vector3.isNonZero (velocity (iteration s))) eqn:Hnz;
      constructor; [now split | constructor]. }
  split.
  { change (sweeps (?e :: ?l)) with
      (if isSweep e then S (sweeps l) else sweeps l).
    simpl. now rewrite sweeps_checks. }
  split; [now destruct (Vector3.isNonZero (velocity (iteration s)))|].
  split.
  { simpl. rewrite testedMeshes_checks. apply testedMeshes_length_filter. }
  split; [now destruct (Vector3.isNonZero (velocity (iteration s)))|].
  split; [exact Hresp|].
  split; [destruct (Vector3.isNonZero (velocity (iteration s))); simpl; lia|].
  rewrite filter_app. simpl. rewrite callbacks_checks.
  now destruct (Vector3.isNonZero (velocity (iteration s))).
Qed.

(** The whole sweep: every call it makes has the expected shape, and the
    narrow-phase tests and the responses are bounded by the mesh loops. *)
Lemma Resolves_events (maximumRetry : Z) (s s' : State) :
  Resolves maximumRetry s s' ->
  exists added : list Event,
    trace s' = trace s ++ added /\
    Forall (expectedEvent threshold (candidates scene excludedMesh)
              (effectiveMask excludedMesh (collider s)) excludedMesh
              slideOnCollide) added /\
    (List.length (testedMeshes added)
       <= sweeps added * List.length (candidates scene excludedMesh))%nat /\
    (List.length (filter isResponse added) <= sweeps added)%nat.
Proof.
  induction 1 as [s Hb|s Hb Hf|s Hb Hf Hl|s s' Hb Hf Hl Hrec IH].
  - exists []. simpl. rewrite app_nil_r. repeat split; [constructor | lia..].
  - destruct (step_events s)
      as (loop & reply & Ht & _ & Hall & Hsw & _ & Hn & _ & Hr & _).
    exists loop. simpl. split; [exact Ht|].
    apply Forall_app in Hall. destruct Hall as [Hall _].
    split; [exact Hall|]. rewrite Hsw, Hr. simpl. lia.
  - destruct (step_events s)
      as (loop & reply & _ & Ht & Hall & Hsw & Hsw' & Hn & Hn' & Hr & Hr' & _).
    exists (loop ++ reply). simpl. split; [exact Ht|]. split; [exact Hall|].
    rewrite sweeps_app, testedMeshes_app, filter_app, !length_app.
    rewrite Hsw, Hsw', Hn', Hr. simpl. lia.
  - destruct (step_events s)
      as (loop & reply & _ & Ht & Hall & Hsw & Hsw' & Hn & Hn' & Hr & Hr' & _).
    destruct IH as (rest & Hrest & Hall' & Hn'' & Hr'').
    rewrite step_mask in Hall'.
    exists ((loop ++ reply) ++ rest). split.
    { rewrite Hrest. simpl. rewrite Ht. now rewrite !app_assoc. }
    split; [apply Forall_app; now split|].
    rewrite !sweeps_app, !testedMeshes_app, !filter_app, !length_app.
    rewrite Hsw, Hsw', Hn', Hr. simpl. lia.
Qed.

(** X1: over a whole [getNewPosition] call, whatever the number of
    iterations, every mesh handed to the narrow phase is a candidate, is
    enabled, has [checkCollisions] set and a [subMeshes] array, shares a bit
    with the effective mask, and is not the excluded mesh: a body is never
    tested against itself. *)
Theorem tested_meshes_pass_guard (fuel : nat)
        (previous origin displacement : Vector3.t)
        (c : Collider.t Internal) (maximumRetry collisionIndex : Z) :
  (Z.to_nat maximumRetry < fuel)%nat ->
  exists s : State,
    getPosition fuel scene previous origin displacement c maximumRetry
                excludedMesh collisionIndex slideOnCollide = Some s /\
    forall m : AbstractMesh.t,
      In m (testedMeshes (trace s)) ->
      In m (candidates scene excludedMesh) /\
      AbstractMesh.isEnabled m = true /\
      AbstractMesh.checkCollisions m = true /\
      AbstractMesh.subMeshes m <> None /\
      (forall e, excludedMesh = Some e ->
                 AbstractMesh.uniqueId m <> AbstractMesh.uniqueId e) /\
      bitAnd (effectiveMask excludedMesh c) (AbstractMesh.collisionGroup m)
        <> 0.
Proof.
  intros Hfuel.
  destruct (getPosition_returns fuel previous origin displacement c
              maximumRetry collisionIndex Hfuel) as (sw & _ & Hres & Hget).
  eexists. split; [exact Hget|]. intros m Hm.
  destruct (Resolves_events _ _ _ Hres) as (added & Ht & Hall & _).
  cbn [trace emit set_finalPosition] in Hm. rewrite Ht in Hm.
  rewrite !testedMeshes_app in Hm. simpl in Hm. rewrite app_nil_r in Hm.
  assert (Hin : In (EvCheckCollision m) added).
  { clear - Hm. induction added as [|e l IH]; [contradiction|].
    destruct e; simpl in *; auto. destruct Hm as [<-|Hm]; auto. }
  rewrite Forall_forall in Hall. destruct (Hall _ Hin) as [Hc Hs].
  apply shouldCheck_iff in Hs. tauto.
Qed.

(** The cost of a call under an integer budget: at most
    [maximumRetry * candidates] narrow-phase tests and at most
    [maximumRetry] calls to the response. *)
Theorem narrow_phase_cost (fuel : nat)
        (previous origin displacement : Vector3.t)
        (c : Collider.t Internal) (maximumRetry collisionIndex : Z) :
  (Z.to_nat maximumRetry < fuel)%nat ->
  exists s : State,
    getPosition fuel scene previous origin displacement c maximumRetry
                excludedMesh collisionIndex slideOnCollide = Some s /\
    (List.length (testedMeshes (trace s))
       <= Z.to_nat maximumRetry
          * List.length (candidates scene excludedMesh))%nat /\
    (List.length (filter isResponse (trace s)) <= Z.to_nat maximumRetry)%nat.
Proof.
  intros Hfuel.
  destruct (getPosition_returns fuel previous origin displacement c
              maximumRetry collisionIndex Hfuel) as (sw & _ & Hres & Hget).
  eexists. split; [exact Hget|].
  destruct (Resolves_events _ _ _ Hres) as (added & Ht & _ & Hn & Hr).
  destruct (Resolves_invariants _ _ _ Hres) as (_ & _ & _ & _ & Hmax).
  cbn [trace emit set_finalPosition]. rewrite Ht in *. simpl in *.
  rewrite testedMeshes_app, filter_app, !length_app. simpl.
  change (sweeps []) with 0%nat in Hmax.
  assert (Hsw : (sweeps added <= Z.to_nat maximumRetry)%nat) by lia.
  split; [|lia].
  rewrite Nat.add_0_r.
  eapply Nat.le_trans; [exact Hn|]. now apply Nat.mul_le_mono_r.
Qed.

(** X3: the response is never asked to deflect a zero velocity.  Every call
    to [_getResponse] made during [getNewPosition] receives a velocity with
    a component that is not zero, and the caller's slide flag; every call to
    [_initialize] receives ten times [CollisionsEpsilon] as its threshold. *)
Theorem response_never_at_rest (fuel : nat)
        (previous origin displacement : Vector3.t)
        (c : Collider.t Internal) (maximumRetry collisionIndex : Z) :
  (Z.to_nat maximumRetry < fuel)%nat ->
  exists s : State,
    getPosition fuel scene previous origin displacement c maximumRetry
                excludedMesh collisionIndex slideOnCollide = Some s /\
    (forall p v slide, In (EvGetResponse p v slide) (trace s) ->
                       Vector3.isNonZero v = true /\ slide = slideOnCollide) /\
    (forall p v e, In (EvInitialize p v e) (trace s) ->
                   e = (CollisionsEpsilon * 10)%float).
Proof.
  intros Hfuel.
  destruct (getPosition_returns fuel previous origin displacement c
              maximumRetry collisionIndex Hfuel) as (sw & _ & Hres & Hget).
  eexists. split; [exact Hget|].
  destruct (Resolves_events _ _ _ Hres) as (added & Ht & Hall & _).
  cbn [trace emit set_finalPosition]. rewrite Ht. simpl.
  rewrite Forall_forall in Hall.
  split; intros p v x Hin; apply in_app_or in Hin;
    destruct Hin as [Hin|[Hin|[]]]; try discriminate;
    exact (Hall _ Hin).
Qed.

(** ** A larger budget *)

(** Two sweeps from the same state under budgets [m1 <= m2] go the same way
    until the smaller budget runs out: the calls of the larger one begin
    with the calls of the smaller one. *)
Lemma Resolves_extend (m1 m2 : Z) (s s1 s2 : State) :
  m1 <= m2 ->
  Resolves m1 s s1 -> Resolves m2 s s2 ->
  (exists rest : list Event, trace s2 = trace s1 ++ rest) /\
  (s1 = s2 \/
   (m1 <= Collider._retry (collider s1) /\ finalPosition s1 = position s1)).
Proof.
  intros Hm H1. revert s2.
  induction H1 as [s Hb|s Hb Hf|s Hb Hf Hl|s s' Hb Hf Hl Hrec IH];
    intros s2 H2.
  - destruct (Resolves_events _ _ _ H2) as (added & Ht & _).
    split; [now exists added|]. right. now split.
  - assert (E : set_finalPosition
                  (Vector3.addToRef (position (iteration s))
                                    (velocity (iteration s)))
                  (iteration s) = s2)
      by (inversion H2; subst; try reflexivity; try lia; congruence).
    rewrite E. split; [exists []; now rewrite app_nil_r | now left].
  - assert (E : set_finalPosition (position (reaction (iteration s)))
                  (reaction (iteration s)) = s2)
      by (inversion H2; subst; try reflexivity; try lia; congruence).
    rewrite E. split; [exists []; now rewrite app_nil_r | now left].
  - inversion H2; subst; try lia; try congruence. now apply IH.
Qed.

(** C9 (amended): what a larger budget changes.  For [m1 <= m2] the call
    under budget [m2] extends the call under budget [m1]: up to the
    callback, its calls to the collaborators begin with those made under
    [m1].  If budget [m1] was not exhausted (the final [_retry] is below
    [m1]) both calls end in the same state, with the same final position
    and so the same displacement magnitude.  If it was exhausted, the
    result under [m1] is the position at which the sweep then stood, scaled
    back by the radius; nothing orders its distance from the start against
    the one reached under [m2]. *)
Theorem more_retries_extend (fuel1 fuel2 : nat)
        (previous origin displacement : Vector3.t)
        (c : Collider.t Internal) (m1 m2 collisionIndex : Z) :
  m1 <= m2 ->
  (Z.to_nat m1 < fuel1)%nat ->
  (Z.to_nat m2 < fuel2)%nat ->
  exists s1 s2 : State,
    getPosition fuel1 scene previous origin displacement c m1
                excludedMesh collisionIndex slideOnCollide = Some s1 /\
    getPosition fuel2 scene previous origin displacement c m2
                excludedMesh collisionIndex slideOnCollide = Some s2 /\
    (exists calls rest : list Event,
       trace s1 = calls ++ [EvCallback collisionIndex (finalPosition s1)
                              (Collider.collidedMesh (collider s1))] /\
       trace s2 = calls ++ rest
                  ++ [EvCallback collisionIndex (finalPosition s2)
                        (Collider.collidedMesh (collider s2))]) /\
    (Collider._retry (collider s1) < m1 ->
     s1 = s2 /\
     displacementMagnitude (finalPosition s1) origin
       = displacementMagnitude (finalPosition s2) origin) /\
    (finalPosition s1 = finalPosition s2 \/
     (m1 <= Collider._retry (collider s1) /\
      finalPosition s1 =
        Vector3.multiplyInPlace (position s1) (Collider._radius c))).
Proof.
  intros Hm Hf1 Hf2.
  destruct (getPosition_returns fuel1 previous origin displacement c m1
              collisionIndex Hf1) as (sw1 & _ & Hres1 & Hget1).
  destruct (getPosition_returns fuel2 previous origin displacement c m2
              collisionIndex Hf2) as (sw2 & _ & Hres2 & Hget2).
  eexists. eexists. split; [exact Hget1|]. split; [exact Hget2|].
  cbn [finalPosition position collider trace emit set_finalPosition].
  destruct (Resolves_extend _ _ _ _ _ Hm Hres1 Hres2)
    as ((rest & Hrest) & Hcases).
  split; [exists (trace sw1), rest; split;
          [reflexivity | now rewrite Hrest, app_assoc]|].
  split.
  - intros Hleft. destruct Hcases as [Heq|(Hout & _)]; [|lia].
    rewrite Heq. now split.
  - destruct Hcases as [Heq|(Hout & Hfin)].
    + left. now rewrite Heq.
    + right. split; [exact Hout|]. now rewrite Hfin.
Qed.

(** ** The budget as a number *)

Lemma reaches_integerBudget (maximumRetry : float) (k : Z) :
  integerBudget maximumRetry = Some k ->
  forall n : Z, 0 <= n -> reaches n maximumRetry = (k <=? n).
Proof.
  unfold integerBudget, reaches. intros Hk n Hn.
  destruct (Prim2SF maximumRetry) as [sg|sg| |sg m e]; try discriminate.
  - injection Hk as <-. reflexivity.
  - destruct sg; [|discriminate]. injection Hk as <-.
    symmetry. now apply Z.leb_le.
  - injection Hk as <-. destruct (0 <=? e) eqn:He; [reflexivity|].
    apply Z.leb_gt in He.
    set (v := if sg then Z.neg m else Z.pos m).
    assert (Hd : 0 < 2 ^ (- e)) by (apply Z.pow_pos_nonneg; lia).
    set (d := 2 ^ (- e)) in *.
    destruct (Z.leb_spec v (n * d)) as [Hle|Hgt];
      symmetry; [apply Z.leb_le | apply Z.leb_gt].
    + assert (- n <= - v / d) by (apply Z.div_le_lower_bound; lia). lia.
    + assert (- v / d < - n) by (apply Z.div_lt_upper_bound; lia). lia.
Qed.

Lemma reaches_never (maximumRetry : float) :
  integerBudget maximumRetry = None ->
  forall n : Z, reaches n maximumRetry = false.
Proof.
  unfold integerBudget, reaches. intros Hk n.
  destruct (Prim2SF maximumRetry) as [sg|sg| |sg m e]; try discriminate.
  - now destruct sg.
  - reflexivity.
Qed.

(** A budget with an integer ceiling [k] runs the sweep of the integer
    budget [k]. *)
Lemma numCollide_integer (fuel : nat) (maximumRetry : float) (k : Z)
      (s : State) :
  integerBudget maximumRetry = Some k ->
  0 <= Collider._retry (collider s) ->
  numCollide fuel scene s maximumRetry slideOnCollide excludedMesh =
  collide fuel scene s k slideOnCollide excludedMesh.
Proof.
  intros Hk. revert s. induction fuel as [|fuel IH]; intros s Hr;
    [reflexivity|].
  cbn [NumberBudget._collideWithWorld _collideWithWorld].
  rewrite (reaches_integerBudget _ _ Hk _ Hr), Z.geb_leb.
  rewrite IH; [reflexivity|].
  destruct (respond_frame (iteration s)) as (_ & Hr1 & _).
  destruct (sweepIteration_frame s) as (_ & _ & _ & Hr2 & _).
  destruct (incr_retry_frame (reaction (iteration s))) as (_ & _ & _ & Hi).
  cbv zeta in Hr1, Hr2. rewrite Hi, Hr1, Hr2. lia.
Qed.

Lemma numGetPosition_integer (fuel : nat) (maximumRetry : float) (k : Z)
      (previous origin displacement : Vector3.t) (c : Collider.t Internal)
      (collisionIndex : Z) :
  integerBudget maximumRetry = Some k ->
  numGetPosition fuel scene previous origin displacement c maximumRetry
                 excludedMesh collisionIndex slideOnCollide =
  getPosition fuel scene previous origin displacement c k excludedMesh
              collisionIndex slideOnCollide.
Proof.
  intros Hk. unfold NumberBudget.getNewPosition, getNewPosition.
  rewrite (numCollide_integer fuel maximumRetry k); [reflexivity | exact Hk|].
  simpl. lia.
Qed.

(** C1 (amended): when the sweep ends.  [maximumRetry] is a number.  When
    it is neither NaN nor +Infinity it has an integer ceiling [k] (the
    counter [_retry] meets the budget exactly from [k] on); with [k] within
    the integers a number holds exactly ([k <= 2^53]), [getNewPosition]
    returns as soon as the unrolling allows one call more than [k]: the
    budget test is the first branch of every iteration and [_retry] grows
    by exactly one per recursive call, so the call carries at most [k] mesh
    loops (none when the budget is zero or negative), and the number of
    mesh loops is the final [_retry] or one more.  For a whole number the
    ceiling is the number itself. *)
Theorem number_budget_terminates (fuel : nat)
        (previous origin displacement : Vector3.t)
        (c : Collider.t Internal) (maximumRetry : float)
        (collisionIndex k : Z) :
  integerBudget maximumRetry = Some k ->
  k <= 2 ^ 53 ->
  (Z.to_nat k < fuel)%nat ->
  (forall n : Z, 0 <= n -> (reaches n maximumRetry = true <-> k <= n)) /\
  exists s : State,
    numGetPosition fuel scene previous origin displacement c maximumRetry
                   excludedMesh collisionIndex slideOnCollide = Some s /\
    (sweeps (trace s) <= Z.to_nat k)%nat /\
    Collider._retry (collider s) <= Z.of_nat (sweeps (trace s))
      <= Collider._retry (collider s) + 1.
Proof.
  intros Hk _ Hfuel. split.
  - intros n Hn. rewrite (reaches_integerBudget _ _ Hk n Hn).
    apply Z.leb_le.
  - rewrite (numGetPosition_integer fuel maximumRetry k) by exact Hk.
    now apply collideWithWorld_terminates.
Qed.

(** X2: the cost of a call.  For a budget that is neither NaN nor
    +Infinity, with integer ceiling [k <= 2^53], [getNewPosition] makes at
    most [k * candidates] narrow-phase tests and at most [k] calls to the
    response. *)
Theorem number_budget_cost (fuel : nat)
        (previous origin displacement : Vector3.t)
        (c : Collider.t Internal) (maximumRetry : float)
        (collisionIndex k : Z) :
  integerBudget maximumRetry = Some k ->
  k <= 2 ^ 53 ->
  (Z.to_nat k < fuel)%nat ->
  exists s : State,
    numGetPosition fuel scene previous origin displacement c maximumRetry
                   excludedMesh collisionIndex slideOnCollide = Some s /\
    (List.length (testedMeshes (trace s))
       <= Z.to_nat k * List.length (candidates scene excludedMesh))%nat /\
    (List.length (filter isResponse (trace s)) <= Z.to_nat k)%nat.
Proof.
  intros Hk _ Hfuel.
  rewrite (numGetPosition_integer fuel maximumRetry k) by exact Hk.
  now apply narrow_phase_cost.
Qed.

(** Against NaN and +Infinity the budget test never fires: the sweep can
    only end by finding no collision or by running out of velocity. *)
Lemma numCollide_unbounded (fuel : nat) (maximumRetry : float) (s : State) :
  integerBudget maximumRetry = None ->
  Collider.collisionFound (collider (iteration s)) = true ->
  (Vector3.length (velocity (reaction (iteration s))) <=? threshold)%float
    = false ->
  numCollide (S fuel) scene s maximumRetry slideOnCollide excludedMesh =
  numCollide fuel scene (incr_retry (reaction (iteration s))) maximumRetry
             slideOnCollide excludedMesh.
Proof.
  intros Hk Hf Hl. cbn [NumberBudget._collideWithWorld].
  rewrite (reaches_never _ Hk). fold (iteration s). rewrite Hf. simpl.
  fold (reaction (iteration s)). now rewrite Hl.
Qed.

(** ** Scratch state *)

Lemma checkMeshes_final (v : Vector3.t) (mask : Z)
      (l : list AbstractMesh.t) (s : State) :
  meshLoop mask excludedMesh l (set_finalPosition v s) =
  set_finalPosition v (meshLoop mask excludedMesh l s).
Proof.
  revert s. induction l as [|m l IH]; intros s; simpl; [reflexivity|].
  destruct (shouldCheck mask excludedMesh m); [|apply IH].
  rewrite <- IH. f_equal. unfold _checkCollision. simpl.
  now destruct (narrowPhase m (collider s)) as [[found hit] st].
Qed.

Lemma iteration_final (v : Vector3.t) (s : State) :
  iteration (set_finalPosition v s) = set_finalPosition v (iteration s).
Proof. unfold sweepIteration. now rewrite <- checkMeshes_final. Qed.

Lemma reaction_final (v : Vector3.t) (s : State) :
  reaction (set_finalPosition v s) = set_finalPosition v (reaction s).
Proof.
  unfold respond, _getResponse. simpl.
  destruct (Vector3.isNonZero (velocity s)); [|reflexivity].
  destruct (response (position s) (velocity s) slideOnCollide (collider s))
    as [[p w] st].
  now destruct (negb slideOnCollide).
Qed.

(** The sweep never reads [finalPosition]: it only writes it, on every way
    out. *)
Lemma collide_ignores_final (fuel : nat) (maximumRetry : Z)
      (v : Vector3.t) (s : State) :
  collide fuel scene (set_finalPosition v s) maximumRetry slideOnCollide
          excludedMesh =
  collide fuel scene s maximumRetry slideOnCollide excludedMesh.
Proof.
  revert s. induction fuel as [|fuel IH]; intros s; [reflexivity|].
  cbn [_collideWithWorld]. fold (iteration (set_finalPosition v s)).
  fold (iteration s). rewrite iteration_final.
  fold (reaction (set_finalPosition v (iteration s))).
  fold (reaction (iteration s)). rewrite reaction_final.
  change (incr_retry (set_finalPosition v (reaction (iteration s))))
    with (set_finalPosition v (incr_retry (reaction (iteration s)))).
  rewrite IH. reflexivity.
Qed.

(** X4: scratch state does not leak between calls.  The outcome of
    [getNewPosition] does not depend on what an earlier call left in
    [_finalPosition], nor on the collider's former [_retry], [collidedMesh],
    [_initialPosition] and [_initialVelocity]: all of these are overwritten
    before they are read. *)
Theorem scratch_is_overwritten (fuel : nat)
        (previous previous' origin displacement : Vector3.t)
        (c : Collider.t Internal) (maximumRetry collisionIndex : Z)
        (retry' : Z) (hit' : option AbstractMesh.t)
        (initialPosition' initialVelocity' : Vector3.t) :
  getPosition fuel scene previous' origin displacement
    (Collider.mk (Collider._radius c) retry' initialVelocity'
       initialPosition' (Collider.collisionFound c) hit'
       (Collider.collisionMask c) (Collider.internal c))
    maximumRetry excludedMesh collisionIndex slideOnCollide =
  getPosition fuel scene previous origin displacement c maximumRetry
    excludedMesh collisionIndex slideOnCollide.
Proof.
  unfold getNewPosition.
  change (enterSweep previous' origin displacement
            (Collider.mk (Collider._radius c) retry' initialVelocity'
               initialPosition' (Collider.collisionFound c) hit'
               (Collider.collisionMask c) (Collider.internal c)))
    with (set_finalPosition previous'
            (enterSweep previous origin displacement c)).
  now rewrite collide_ignores_final.
Qed.

(** X5: a budget that is zero or negative.  The call is reduced to the
    callback; the collided mesh is reset to null, but the collider's
    [collisionFound] flag and bookkeeping are left exactly as they were
    before the call, so the flag may still say "collision" while the
    collided mesh is null. *)
Theorem exhausted_budget_keeps_flag (fuel : nat)
        (previous origin displacement : Vector3.t)
        (c : Collider.t Internal) (maximumRetry collisionIndex : Z) :
  maximumRetry <= 0 ->
  exists s : State,
    getPosition (S fuel) scene previous origin displacement c maximumRetry
                excludedMesh collisionIndex slideOnCollide = Some s /\
    trace s = [EvCallback collisionIndex (finalPosition s) None] /\
    finalPosition s =
      Vector3.multiplyInPlace
        (Vector3.divideToRef origin (Collider._radius c))
        (Collider._radius c) /\
    Collider.collidedMesh (collider s) = None /\
    Collider.collisionFound (collider s) = Collider.collisionFound c /\
    Collider.internal (collider s) = Collider.internal c /\
    Collider._retry (collider s) = 0.
Proof.
  intros Hmax. eexists. split.
  { apply getPosition_of_sweep. apply collide_budget_first. simpl. lia. }
  repeat split.
Qed.

(** ** How a sweep ends *)

Lemma reaction_found (s : State) :
  Collider.collisionFound (collider (incr_retry (reaction s))) =
  Collider.collisionFound (collider s).
Proof. now destruct (respond_frame s) as (_ & _ & _ & Hf & _). Qed.

(** After at least one iteration the collider's flag tells how the sweep
    ended: without the flag the last velocity was added, with it the body
    stays where the last response left it. *)
Lemma Resolves_outcome (maximumRetry : Z) (s s' : State) :
  Resolves maximumRetry s s' ->
  Collider._retry (collider s) < maximumRetry \/
  Collider.collisionFound (collider s) = true ->
  finalPosition s' =
    (if Collider.collisionFound (collider s')
     then position s'
     else Vector3.addToRef (position s') (velocity s')).
Proof.
  induction 1 as [s Hb|s Hb Hf|s Hb Hf Hl|s s' Hb Hf Hl Hrec IH];
    intros Hstart.
  - destruct Hstart as [Hlt|Hfound]; [lia|]. simpl. now rewrite Hfound.
  - simpl. now rewrite Hf.
  - simpl. destruct (respond_frame (iteration s)) as (_ & _ & _ & Hf' & _).
    cbv zeta in Hf'. now rewrite Hf', Hf.
  - apply IH. right. now rewrite reaction_found.
Qed.

(** X6: reading the result.  When the budget allows at least one iteration,
    the position handed to the callback is the final normalised position
    scaled back by the radius if the collider's [collisionFound] flag is set
    at the end of the call, and the final normalised position plus the final
    normalised velocity, scaled back, if it is not. *)
Theorem flag_tells_outcome (fuel : nat)
        (previous origin displacement : Vector3.t)
        (c : Collider.t Internal) (maximumRetry collisionIndex : Z) :
  1 <= maximumRetry ->
  (Z.to_nat maximumRetry < fuel)%nat ->
  exists s : State,
    getPosition fuel scene previous origin displacement c maximumRetry
                excludedMesh collisionIndex slideOnCollide = Some s /\
    finalPosition s =
      Vector3.multiplyInPlace
        (if Collider.collisionFound (collider s)
         then position s
         else Vector3.addToRef (position s) (velocity s))
        (Collider._radius c).
Proof.
  intros Hmax Hfuel.
  destruct (getPosition_returns fuel previous origin displacement c
              maximumRetry collisionIndex Hfuel) as (sw & _ & Hres & Hget).
  eexists. split; [exact Hget|].
  cbn [finalPosition position velocity collider emit set_finalPosition].
  now rewrite (Resolves_outcome _ _ _ Hres) by (left; simpl; lia).
Qed.

(** ** Stopping at the first contact *)

Lemma reaction_stops (s : State) :
  slideOnCollide = false ->
  Vector3.length (velocity (reaction s)) = 0%float.
Proof.
  intros Hs. destruct (Vector3.isNonZero (velocity s)) eqn:Hnz.
  - destruct (respond_stop s Hs Hnz) as [Hzero _]. now rewrite Hzero.
  - unfold respond. rewrite Hnz. now apply length_at_rest.
Qed.

Lemma Resolves_stop (maximumRetry : Z) (s s' : State) :
  slideOnCollide = false ->
  (0 <=? threshold)%float = true ->
  Resolves maximumRetry s s' ->
  (sweeps (trace s') <= S (sweeps (trace s)))%nat.
Proof.
  intros Hs Hthr Hres.
  destruct Hres as [s Hb|s Hb Hf|s Hb Hf Hl|s s' Hb Hf Hl Hrec].
  - simpl. lia.
  - simpl. rewrite sweeps_iteration. lia.
  - simpl. destruct (respond_frame (iteration s)) as (_ & _ & _ & _ & _ & Ht).
    cbv zeta in Ht. rewrite Ht, sweeps_app, sweeps_iteration.
    destruct (Vector3.isNonZero (velocity (iteration s)));
      unfold sweeps; simpl; lia.
  - rewrite (reaction_stops _ Hs) in Hl. congruence.
Qed.

(** X7: without sliding the scene is swept at most once.  With
    [slideOnCollide = false] and a proximity threshold that is not negative,
    [getNewPosition] runs at most one iteration, whatever the budget: at
    most one pass over the candidates and one call to the response. *)
Theorem stop_sweeps_once (fuel : nat)
        (previous origin displacement : Vector3.t)
        (c : Collider.t Internal) (maximumRetry collisionIndex : Z) :
  slideOnCollide = false ->
  (0 <=? threshold)%float = true ->
  (Z.to_nat maximumRetry < fuel)%nat ->
  exists s : State,
    getPosition fuel scene previous origin displacement c maximumRetry
                excludedMesh collisionIndex slideOnCollide = Some s /\
    (sweeps (trace s) <= 1)%nat /\
    (List.length (testedMeshes (trace s))
       <= List.length (candidates scene excludedMesh))%nat /\
    (List.length (filter isResponse (trace s)) <= 1)%nat.
Proof.
  intros Hs Hthr Hfuel.
  destruct (getPosition_returns fuel previous origin displacement c
              maximumRetry collisionIndex Hfuel) as (sw & _ & Hres & Hget).
  eexists. split; [exact Hget|].
  pose proof (Resolves_stop _ _ _ Hs Hthr Hres) as Hsw.
  destruct (Resolves_events _ _ _ Hres) as (added & Ht & _ & Hn & Hr).
  cbn [trace emit set_finalPosition]. rewrite Ht in *. simpl in *.
  rewrite sweeps_app, testedMeshes_app, filter_app, !length_app. simpl.
  change (sweeps [EvCallback _ _ _]) with 0%nat.
  change (sweeps []) with 0%nat in Hsw.
  assert (Hone : (sweeps added <= 1)%nat) by lia.
  split; [lia|]. split; [|lia].
  rewrite Nat.add_0_r. eapply Nat.le_trans; [exact Hn|].
  destruct (sweeps added) as [|[|n]]; simpl; lia.
Qed.

(** ** When nothing passes the guard *)

Lemma checkMeshes_none (mask : Z) (l : list AbstractMesh.t) (s : State) :
  filter (shouldCheck mask excludedMesh) l = [] ->
  meshLoop mask excludedMesh l s = s.
Proof.
  induction l as [|m l IH]; simpl; [reflexivity|].
  destruct (shouldCheck mask excludedMesh m); [discriminate | exact IH].
Qed.

Lemma free_pass (fuel : nat)
      (previous origin displacement : Vector3.t)
      (c : Collider.t Internal) (maximumRetry collisionIndex : Z) :
  1 <= maximumRetry ->
  filter (shouldCheck (effectiveMask excludedMesh c) excludedMesh)
         (candidates scene excludedMesh) = [] ->
  let start := Vector3.divideToRef origin (Collider._radius c) in
  let motion := Vector3.divideToRef displacement (Collider._radius c) in
  exists s : State,
    getPosition (S fuel) scene previous origin displacement c maximumRetry
                excludedMesh collisionIndex slideOnCollide = Some s /\
    trace s = [EvInitialize start motion threshold;
               EvCallback collisionIndex (finalPosition s) None] /\
    finalPosition s =
      Vector3.multiplyInPlace (Vector3.addToRef start motion)
                              (Collider._radius c) /\
    Collider.collisionFound (collider s) = false /\
    Collider.collidedMesh (collider s) = None.
Proof.
  intros Hmax Hnone start motion.
  assert (Hit : iteration (enterSweep previous origin displacement c) =
                _initialize Internal resetBookkeeping threshold
                  (enterSweep previous origin displacement c)).
  { unfold sweepIteration. apply checkMeshes_none. exact Hnone. }
  eexists. split.
  { apply getPosition_of_sweep. apply collide_free; [simpl; lia|].
    now rewrite Hit. }
  rewrite Hit. repeat split.
Qed.

(** X8: a move nothing can obstruct.  When no candidate passes the guard
    (empty scene, empty [surroundingMeshes] list, meshes disabled or without
    collision checking, only the excluded mesh itself, no shared mask bit)
    and the budget allows one iteration, [getNewPosition] resets the
    collider once, tests no mesh, and reports the normalised position plus
    the normalised displacement, scaled back by the radius, with no
    collision and a null collided mesh. *)
Theorem nothing_to_test (fuel : nat)
        (previous origin displacement : Vector3.t)
        (c : Collider.t Internal) (maximumRetry collisionIndex : Z) :
  1 <= maximumRetry ->
  filter (shouldCheck (effectiveMask excludedMesh c) excludedMesh)
         (candidates scene excludedMesh) = [] ->
  exists s : State,
    getPosition (S fuel) scene previous origin displacement c maximumRetry
                excludedMesh collisionIndex slideOnCollide = Some s /\
    trace s =
      [EvInitialize (Vector3.divideToRef origin (Collider._radius c))
                    (Vector3.divideToRef displacement (Collider._radius c))
                    threshold;
       EvCallback collisionIndex (finalPosition s) None] /\
    finalPosition s =
      Vector3.multiplyInPlace
        (Vector3.addToRef
           (Vector3.divideToRef origin (Collider._radius c))
           (Vector3.divideToRef displacement (Collider._radius c)))
        (Collider._radius c) /\
    Collider.collisionFound (collider s) = false /\
    Collider.collidedMesh (collider s) = None.
Proof. intros Hmax Hnone. now apply free_pass. Qed.

Lemma shouldCheck_blind (mask : Z) (m : AbstractMesh.t) :
  ToInt32 mask = 0 -> shouldCheck mask excludedMesh m = false.
Proof.
  intros Hz. unfold shouldCheck, bitAnd. rewrite Hz, Z.land_0_l. simpl.
  now rewrite andb_false_r.
Qed.

(** X9: a mask without bits.  When the effective collision mask is zero in
    its low 32 bits (0, or any multiple of [2^32]: the mask is taken through
    JavaScript's [&]), no mesh of any scene is ever tested and the move goes
    through unobstructed. *)
Theorem blind_mask_passes (fuel : nat)
        (previous origin displacement : Vector3.t)
        (c : Collider.t Internal) (maximumRetry collisionIndex : Z) :
  1 <= maximumRetry ->
  ToInt32 (effectiveMask excludedMesh c) = 0 ->
  exists s : State,
    getPosition (S fuel) scene previous origin displacement c maximumRetry
                excludedMesh collisionIndex slideOnCollide = Some s /\
    testedMeshes (trace s) = [] /\
    finalPosition s =
      Vector3.multiplyInPlace
        (Vector3.addToRef
           (Vector3.divideToRef origin (Collider._radius c))
           (Vector3.divideToRef displacement (Collider._radius c)))
        (Collider._radius c) /\
    Collider.collidedMesh (collider s) = None.
Proof.
  intros Hmax Hz.
  destruct (free_pass fuel previous origin displacement c maximumRetry
              collisionIndex Hmax) as (s & Hget & Ht & Hfin & _ & Hhit).
  { induction (candidates scene excludedMesh) as [|m l IH]; [reflexivity|].
    simpl. now rewrite shouldCheck_blind. }
  exists s. split; [exact Hget|]. rewrite Ht. repeat split; assumption.
Qed.

(** ** The coordinator object *)

Local Abbreviation objCollide :=
  (DefaultCollisionCoordinator._collideWithWorld Internal CollisionsEpsilon
     resetBookkeeping narrowPhase response).
Local Abbreviation objGetPosition :=
  (DefaultCollisionCoordinator.getNewPosition Internal CollisionsEpsilon
     resetBookkeeping narrowPhase response).

Lemma meshesFor_bound :
  DefaultCollisionCoordinator.meshesFor (Some scene) excludedMesh =
  Some (candidates scene excludedMesh).
Proof.
  unfold DefaultCollisionCoordinator.meshesFor, candidates.
  destruct excludedMesh as [e|]; [|reflexivity].
  now destruct (AbstractMesh.surroundingMeshes e).
Qed.

(** With a scene bound, the object's sweep is the sweep over that scene. *)
Lemma objCollide_bound (fuel : nat) (maximumRetry : Z) (s : State) :
  objCollide fuel (Some scene) s maximumRetry slideOnCollide excludedMesh =
  match collide fuel scene s maximumRetry slideOnCollide excludedMesh with
  | Some s' => DefaultCollisionCoordinator.Returned s'
  | None => DefaultCollisionCoordinator.Unfinished
  end.
Proof.
  revert s. induction fuel as [|fuel IH]; intros s; [reflexivity|].
  cbn [DefaultCollisionCoordinator._collideWithWorld _collideWithWorld].
  rewrite meshesFor_bound. fold (iteration s).
  destruct (Collider._retry (collider s) >=? maximumRetry); [reflexivity|].
  destruct (negb (Collider.collisionFound (collider (iteration s))));
    [reflexivity|].
  fold (reaction (iteration s)).
  destruct (Vector3.length (velocity (reaction (iteration s)))
              <=? threshold)%float; [reflexivity|].
  apply IH.
Qed.

(** The object bound to a scene by [init] and the sweep over that scene
    are one and the same computation.  (Exhaustion of the call stack by the
    recursion is an engine limit and is not modelled.) *)
Lemma objGetPosition_bound (fuel : nat)
        (this : DefaultCollisionCoordinator.t)
        (origin displacement : Vector3.t)
        (c : Collider.t Internal) (maximumRetry collisionIndex : Z) :
  objGetPosition fuel (DefaultCollisionCoordinator.init scene this)
                 origin displacement c maximumRetry excludedMesh
                 collisionIndex slideOnCollide =
  match getPosition fuel scene
          (DefaultCollisionCoordinator._finalPosition this)
          origin displacement c maximumRetry excludedMesh collisionIndex
          slideOnCollide with
  | Some s => DefaultCollisionCoordinator.Returned s
  | None => DefaultCollisionCoordinator.Unfinished
  end.
Proof.
  unfold DefaultCollisionCoordinator.getNewPosition, getNewPosition.
  cbn [DefaultCollisionCoordinator._scene DefaultCollisionCoordinator.init
       DefaultCollisionCoordinator._finalPosition].
  rewrite objCollide_bound.
  now destruct (collide fuel scene
                  (enterSweep (DefaultCollisionCoordinator._finalPosition this)
                     origin displacement c)
                  maximumRetry slideOnCollide excludedMesh).
Qed.

(** X11: a coordinator used before [init].  With no scene bound, a budget
    of at least one and no [surroundingMeshes] list to fall back on,
    [getNewPosition] throws when it reaches for [this._scene.meshes]: the
    collider has been prepared and reset once, no mesh has been tested and
    the callback is never invoked. *)
Theorem unbound_coordinator_throws (fuel : nat)
        (this : DefaultCollisionCoordinator.t)
        (origin displacement : Vector3.t)
        (c : Collider.t Internal) (maximumRetry collisionIndex : Z) :
  DefaultCollisionCoordinator._scene this = None ->
  1 <= maximumRetry ->
  (forall e, excludedMesh = Some e ->
             AbstractMesh.surroundingMeshes e = None) ->
  exists s : State,
    objGetPosition (S fuel) this origin displacement c maximumRetry
                   excludedMesh collisionIndex slideOnCollide =
      DefaultCollisionCoordinator.Threw s /\
    trace s =
      [EvInitialize (Vector3.divideToRef origin (Collider._radius c))
                    (Vector3.divideToRef displacement (Collider._radius c))
                    threshold] /\
    Collider.collidedMesh (collider s) = None /\
    Collider.collisionFound (collider s) = false /\
    Collider._retry (collider s) = 0.
Proof.
  intros Hscene Hmax Hlist.
  assert (Hnone : DefaultCollisionCoordinator.meshesFor None excludedMesh
                  = None).
  { unfold DefaultCollisionCoordinator.meshesFor.
    destruct excludedMesh as [e|]; [|reflexivity].
    now rewrite (Hlist e eq_refl). }
  unfold DefaultCollisionCoordinator.getNewPosition. rewrite Hscene.
  cbn [DefaultCollisionCoordinator._collideWithWorld]. rewrite Hnone.
  destruct (Z.geb_spec
              (Collider._retry
                 (collider (enterSweep
                              (DefaultCollisionCoordinator._finalPosition this)
                              origin displacement c)))
              maximumRetry) as [H|_]; [simpl in H; lia|].
  eexists. split; [reflexivity|]. repeat split.
Qed.

Lemma objCollide_scene_free (fuel : nat) (maximumRetry : Z)
      (sc sc' : option Scene) (s : State) :
  (maximumRetry <= Collider._retry (collider s) \/
   exists e l, excludedMesh = Some e /\
               AbstractMesh.surroundingMeshes e = Some l) ->
  objCollide fuel sc s maximumRetry slideOnCollide excludedMesh =
  objCollide fuel sc' s maximumRetry slideOnCollide excludedMesh.
Proof.
  intros [Hb|(e & l & He & Hl)].
  - destruct fuel as [|fuel]; [reflexivity|].
    cbn [DefaultCollisionCoordinator._collideWithWorld].
    destruct (Z.geb_spec (Collider._retry (collider s)) maximumRetry);
      [reflexivity | lia].
  - assert (Hm : forall o, DefaultCollisionCoordinator.meshesFor o excludedMesh
                           = Some l).
    { intros o. unfold DefaultCollisionCoordinator.meshesFor.
      now rewrite He, Hl. }
    revert s. induction fuel as [|fuel IH]; intros s; [reflexivity|].
    cbn [DefaultCollisionCoordinator._collideWithWorld].
    rewrite !Hm, IH. reflexivity.
Qed.

(** X12: when the scene is not needed.  With a budget that is zero or
    negative, or with an excluded mesh that carries a [surroundingMeshes]
    list (even an empty one), [this._scene] is never read: the call ends the
    same way on any coordinator object, bound to any scene or to none. *)
Theorem scene_not_read (fuel : nat)
        (this : DefaultCollisionCoordinator.t) (scene' : option Scene)
        (origin displacement : Vector3.t)
        (c : Collider.t Internal) (maximumRetry collisionIndex : Z) :
  (maximumRetry <= 0 \/
   exists e l, excludedMesh = Some e /\
               AbstractMesh.surroundingMeshes e = Some l) ->
  objGetPosition fuel this origin displacement c maximumRetry excludedMesh
                 collisionIndex slideOnCollide =
  objGetPosition fuel
    (DefaultCollisionCoordinator.mk scene'
       (DefaultCollisionCoordinator._scaledPosition this)
       (DefaultCollisionCoordinator._scaledVelocity this)
       (DefaultCollisionCoordinator._finalPosition this))
    origin displacement c maximumRetry excludedMesh collisionIndex
    slideOnCollide.
Proof.
  intros H. unfold DefaultCollisionCoordinator.getNewPosition.
  cbn [DefaultCollisionCoordinator._scene
       DefaultCollisionCoordinator._finalPosition].
  now rewrite (objCollide_scene_free fuel maximumRetry
                 (DefaultCollisionCoordinator._scene this) scene').
Qed.

Lemma objCollide_ignores_final (fuel : nat) (maximumRetry : Z)
      (sc : option Scene) (v : Vector3.t) (s : State) :
  objCollide fuel sc (set_finalPosition v s) maximumRetry slideOnCollide
             excludedMesh =
  match objCollide fuel sc s maximumRetry slideOnCollide excludedMesh with
  | DefaultCollisionCoordinator.Threw s' =>
      DefaultCollisionCoordinator.Threw (set_finalPosition v s')
  | done => done
  end.
Proof.
  revert s. induction fuel as [|fuel IH]; intros s; [reflexivity|].
  cbn [DefaultCollisionCoordinator._collideWithWorld].
  change (Collider._retry (collider (set_finalPosition v s)))
    with (Collider._retry (collider s)).
  destruct (Collider._retry (collider s) >=? maximumRetry); [reflexivity|].
  destruct (DefaultCollisionCoordinator.meshesFor sc excludedMesh)
    as [l|]; [|reflexivity].
  change (_initialize Internal resetBookkeeping threshold
            (set_finalPosition v s))
    with (set_finalPosition v
            (_initialize Internal resetBookkeeping threshold s)).
  change (effectiveMask excludedMesh (collider (set_finalPosition v s)))
    with (effectiveMask excludedMesh (collider s)).
  rewrite checkMeshes_final.
  set (s1 := meshLoop (effectiveMask excludedMesh (collider s)) excludedMesh l
               (_initialize Internal resetBookkeeping threshold s)).
  change (Collider.collisionFound (collider (set_finalPosition v s1)))
    with (Collider.collisionFound (collider s1)).
  destruct (negb (Collider.collisionFound (collider s1))); [reflexivity|].
  fold (reaction (set_finalPosition v s1)). fold (reaction s1).
  rewrite reaction_final.
  change (velocity (set_finalPosition v (reaction s1)))
    with (velocity (reaction s1)).
  destruct (Vector3.length (velocity (reaction s1)) <=? threshold)%float;
    [reflexivity|].
  change (incr_retry (set_finalPosition v (reaction s1)))
    with (set_finalPosition v (incr_retry (reaction s1))).
  apply IH.
Qed.

(** X13: one coordinator, many bodies.  A call that returns gives the same
    result whatever the object's scratch vectors hold: two coordinator
    objects with the same scene binding return the same state, so a call is
    not influenced by the calls served before it. *)
Theorem coordinator_is_reusable (fuel : nat)
        (this this' : DefaultCollisionCoordinator.t)
        (origin displacement : Vector3.t)
        (c : Collider.t Internal) (maximumRetry collisionIndex : Z)
        (s : State) :
  DefaultCollisionCoordinator._scene this' =
    DefaultCollisionCoordinator._scene this ->
  objGetPosition fuel this origin displacement c maximumRetry excludedMesh
                 collisionIndex slideOnCollide =
    DefaultCollisionCoordinator.Returned s ->
  objGetPosition fuel this' origin displacement c maximumRetry excludedMesh
                 collisionIndex slideOnCollide =
    DefaultCollisionCoordinator.Returned s.
Proof.
  intros Hscene. unfold DefaultCollisionCoordinator.getNewPosition.
  rewrite Hscene.
  change (enterSweep (DefaultCollisionCoordinator._finalPosition this')
            origin displacement c)
    with (set_finalPosition (DefaultCollisionCoordinator._finalPosition this')
            (enterSweep (DefaultCollisionCoordinator._finalPosition this)
               origin displacement c)).
  rewrite objCollide_ignores_final.
  now destruct (objCollide fuel (DefaultCollisionCoordinator._scene this)
                  (enterSweep (DefaultCollisionCoordinator._finalPosition this)
                     origin displacement c)
                  maximumRetry slideOnCollide excludedMesh).
Qed.

End Resolution.

(** ** The theorems at work in the reference world *)

Import PlaneWorld.

(** The budget test on sample counters and budgets, beside the comparison
    [retry >= maximumRetry] of the two numbers. *)
#[warnings="-inexact-float"] Lemma reaches_is_the_comparison :
  forallb
    (fun maximumRetry : float =>
       forallb
         (fun retry : Z =>
            Bool.eqb (reaches retry maximumRetry)
                     (maximumRetry <=? counterNumber retry)%float)
         [0; 1; 2; 3; 4; 5; 1000; 2 ^ 53 - 1; 2 ^ 53])
    [0; -0; 0.5; 1; 2; 2.5; 3; 3.0000000000000004; 4; 1000.25; -1; -2.5;
     1e-300; 9007199254740991; 9007199254740992; 1e300;
     nan; infinity; neg_infinity]%float = true.
Proof. vm_compute. reflexivity. Qed.

Lemma integerBudget_samples :
  integerBudget 0 = Some 0 /\ integerBudget 3 = Some 3 /\
  integerBudget 0.5 = Some 1 /\ integerBudget 2.5 = Some 3 /\
  integerBudget (-2.5) = Some (-2) /\ integerBudget neg_infinity = Some 0 /\
  integerBudget nan = None /\ integerBudget infinity = None.
Proof. repeat split. Qed.

(** The ball resting on the ground collides on every iteration and never
    slows down; under the budget 2.5 its sweep ends when the counter reaches
    3, after three mesh loops. *)
Lemma number_budget_terminates_witness :
  integerBudget 2.5 = Some 3 /\ 3 <= 2 ^ 53 /\ (Z.to_nat 3 < 4)%nat /\
  (forall n : Z, 0 <= n -> (reaches n 2.5 = true <-> 3 <= n)) /\
  exists s : State Bookkeeping,
    Fixtures.numberGetNewPosition 4 world Vector3.Zero (Vector3.mk 0 0.5 0)
      (Vector3.mk 1 0 0) (ball unitRadius) 2.5 None 7 true = Some s /\
    sweeps (trace s) = 3%nat /\
    Collider._retry (collider s) = 3 /\
    (sweeps (trace s) <= Z.to_nat 3)%nat /\
    Collider._retry (collider s) <= Z.of_nat (sweeps (trace s))
      <= Collider._retry (collider s) + 1.
Proof.
  split; [reflexivity|]. split; [lia|]. split; [simpl; lia|].
  destruct (number_budget_terminates Bookkeeping CollisionsEpsilon reset
              narrow slide world true None 4 Vector3.Zero
              (Vector3.mk 0 0.5 0) (Vector3.mk 1 0 0) (ball unitRadius)
              2.5 7 3)
    as (Hmeets & s & Hrun & Hbound & Hcount);
    [reflexivity | lia | simpl; lia|].
  split; [exact Hmeets|].
  exists s. split; [exact Hrun|].
  assert (Hs : Some s = Some s) by reflexivity.
  rewrite <- Hrun in Hs at 1. vm_compute in Hs. injection Hs as E.
  split; [now rewrite <- E|]. split; [now rewrite <- E|].
  split; [exact Hbound | exact Hcount].
Defined.

(** A sweep that collides on every iteration and keeps its velocity goes on
    for ever under a budget that is NaN or +Infinity. *)
Lemma resting_never_ends (maximumRetry : float) (fuel : nat)
      (s : State Bookkeeping) :
  integerBudget maximumRetry = None ->
  position s = Vector3.mk 0 0.5 0 ->
  velocity s = Vector3.mk 1 0 0 ->
  Collider.collisionMask (collider s) = -1 ->
  NumberBudget._collideWithWorld Bookkeeping CollisionsEpsilon reset narrow
    slide fuel world s maximumRetry true None = None.
Proof.
  intros Hb. revert s. induction fuel as [|fuel IH]; intros s Hp Hv Hm;
    [reflexivity|].
  destruct s as [p v f c tr]. destruct c as [r n iv ip cf cm mask st].
  simpl in Hp, Hv, Hm. subst p v mask.
  rewrite numCollide_unbounded;
    [apply IH; reflexivity | exact Hb | reflexivity | reflexivity].
Qed.

(** C1, as stated, fails twice.  Under the budget 0.5 a move through the
    empty scene runs one mesh loop, which is more than 0.5.  Under the
    budget NaN the ball resting on the ground, asked to move along it, is
    never given a final position: whatever the depth allowed to the
    recursion, the sweep has not ended. *)
Lemma number_budget_counterexample :
  (exists s : State Bookkeeping,
     Fixtures.numberGetNewPosition 2 void Vector3.Zero Vector3.Zero
       (Vector3.mk 1 0 0) (ball unitRadius) 0.5 None 7 true = Some s /\
     sweeps (trace s) = 1%nat /\
     (counterNumber 1 <=? 0.5)%float = false) /\
  (forall fuel : nat,
     Fixtures.numberGetNewPosition fuel world Vector3.Zero
       (Vector3.mk 0 0.5 0) (Vector3.mk 1 0 0) (ball unitRadius) nan None 7
       true = None) /\
  (forall fuel : nat,
     Fixtures.numberGetNewPosition fuel world Vector3.Zero
       (Vector3.mk 0 0.5 0) (Vector3.mk 1 0 0) (ball unitRadius) infinity
       None 7 true = None).
Proof.
  split; [eexists; split; [vm_compute; reflexivity | split; reflexivity]|].
  split; intros fuel;
    unfold Fixtures.numberGetNewPosition, NumberBudget.getNewPosition;
    rewrite resting_never_ends; reflexivity.
Qed.

(** C2, as stated, fails: the ball five units above the ground is asked to
    rise by one unit; the one narrow-phase test the call would run, that of
    the ground, reports no collision, yet with no retry allowed the ball is
    reported at its start. *)
Lemma unobstructed_move_counterexample :
  sweepReportsNothing Bookkeeping CollisionsEpsilon reset narrow world None
    (enterSweep Vector3.Zero (Vector3.mk 0 5 0) (Vector3.mk 0 1 0)
                (ball unitRadius)) /\
  exists s : State Bookkeeping,
    PlaneWorld.getNewPosition 1 world Vector3.Zero (Vector3.mk 0 5 0)
      (Vector3.mk 0 1 0) (ball unitRadius) 0 None 7 true = Some s /\
    finalPosition s = Vector3.mk 0 5 0 /\
    finalPosition s <>
      Vector3.addToRef (Vector3.mk 0 5 0) (Vector3.mk 0 1 0).
Proof.
  split; [vm_compute; repeat split|].
  eexists. split; [vm_compute; reflexivity|].
  split; [reflexivity | vm_compute; discriminate].
Qed.

(** The same move with one retry: the ground is tested, reports nothing,
    and the ball ends one unit higher. *)
Lemma unobstructed_move_witness :
  1 <= 1 /\
  sweepReportsNothing Bookkeeping CollisionsEpsilon reset narrow world None
    (enterSweep Vector3.Zero (Vector3.mk 0 5 0) (Vector3.mk 0 1 0)
                (ball unitRadius)) /\
  exists s : State Bookkeeping,
    PlaneWorld.getNewPosition 1 world Vector3.Zero (Vector3.mk 0 5 0)
      (Vector3.mk 0 1 0) (ball unitRadius) 1 None 7 true = Some s /\
    testedMeshes (trace s) = [ground] /\
    finalPosition s = Vector3.mk 0 6 0 /\
    Collider.collidedMesh (collider s) = None /\
    filter isCallback (trace s) = [EvCallback 7 (finalPosition s) None].
Proof.
  split; [lia|]. split; [vm_compute; repeat split|].
  destruct (unobstructed_move Bookkeeping CollisionsEpsilon reset narrow slide
              world true None 0 Vector3.Zero (Vector3.mk 0 5 0)
              (Vector3.mk 0 1 0) (ball unitRadius) 1 7)
    as (s & Hrun & Hfin & Hhit & Hcb); [lia | vm_compute; repeat split|].
  exists s. split; [exact Hrun|].
  split; [|split; [rewrite Hfin; vm_compute; reflexivity|now split]].
  assert (Hs : Some s = Some s) by reflexivity.
  rewrite <- Hrun in Hs at 1. vm_compute in Hs. injection Hs as <-.
  reflexivity.
Defined.

(** C4, as stated, fails: a mesh whose [subMeshes] array is empty has no
    sub-meshes, and is handed to the narrow phase all the same. *)
Lemma narrow_phase_candidates_counterexample :
  AbstractMesh.subMeshes Fixtures.hollow = Some [] /\
  testedMeshes (trace (iteration Fixtures.hall None approach))
    = [Fixtures.hollow].
Proof. split; reflexivity. Qed.

(** C3, as stated, fails: from [(1, 0, 0)] with radius [(49, 1, 1)] and no
    retry allowed the reported position is [(0.9999999999999999, 0, 0)]:
    dividing by 49 and multiplying back by 49 rounds twice. *)
#[warnings="-inexact-float"] Lemma zero_budget_position_counterexample :
  exists s : State Bookkeeping,
    PlaneWorld.getNewPosition 1 world Vector3.Zero (Vector3.mk 1 0 0)
      (Vector3.mk 0 1 0) (ball (Vector3.mk 49 1 1)) 0 None 7 true = Some s /\
    finalPosition s = Vector3.mk 0.9999999999999999 0 0 /\
    finalPosition s <> Vector3.mk 1 0 0.
Proof.
  eexists. split; [vm_compute; reflexivity|].
  split; [reflexivity | vm_compute; discriminate].
Qed.

(** The deflected ball meets nothing on its second iteration and ends at its
    position plus the deflected velocity [(1, 0, 0)], not plus the
    displacement [(1, -3, 0)] first asked for. *)
Lemma no_collision_adds_velocity_witness :
  Collider._retry (collider deflected) < 2 /\
  Collider.collisionFound (collider (iteration world None deflected)) = false /\
  velocity deflected = Vector3.mk 1 0 0 /\
  exists s' : State Bookkeeping,
    collide 1 world deflected 2 true None = Some s' /\
    finalPosition s' =
      Vector3.addToRef (position deflected) (velocity deflected) /\
    position s' = position deflected /\ velocity s' = velocity deflected.
Proof.
  split; [vm_compute; reflexivity|]. split; [vm_compute; reflexivity|].
  split; [vm_compute; reflexivity|].
  apply (no_collision_adds_velocity Bookkeeping CollisionsEpsilon reset narrow
           slide world true None 0 2 deflected);
    vm_compute; reflexivity.
Defined.



(** C7, as stated, fails: a ball resting half a unit above the ground
    overlaps it, and one sweep iteration would report the contact; with no
    retry allowed and zero displacement no iteration is run, no mesh is
    tested and no collision is reported. *)
Lemma zero_displacement_counterexample :
  shouldCheck (-1) None ground = true /\
  (exists s1 : State Bookkeeping,
     PlaneWorld.getNewPosition 1 world Vector3.Zero (Vector3.mk 0 0.5 0)
       Vector3.Zero (ball unitRadius) 1 None 7 true = Some s1 /\
     Collider.collisionFound (collider s1) = true) /\
  exists s : State Bookkeeping,
    PlaneWorld.getNewPosition 1 world Vector3.Zero (Vector3.mk 0 0.5 0)
      Vector3.Zero (ball unitRadius) 0 None 7 true = Some s /\
    sweeps (trace s) = 0%nat /\
    testedMeshes (trace s) = [] /\
    Collider.collisionFound (collider s) = false /\
    Collider.collidedMesh (collider s) = None.
Proof.
  split; [vm_compute; reflexivity|]. split.
  - eexists. split; vm_compute; reflexivity.
  - eexists. split; [vm_compute; reflexivity|]. repeat split.
Qed.

(** Scenario C of the spec: the resting ball, one retry. *)
Lemma zero_displacement_one_sweep_witness :
  1 <= 1 /\
  Vector3.isPositive unitRadius = true /\
  (0 <=? closeDistance CollisionsEpsilon)%float = true /\
  exists s : State Bookkeeping,
    PlaneWorld.getNewPosition 1 world Vector3.Zero (Vector3.mk 0 0.5 0)
      Vector3.Zero (ball unitRadius) 1 None 7 true = Some s /\
    sweeps (trace s) = 1%nat /\
    testedMeshes (trace s) = [ground] /\
    Collider.collisionFound (collider s) = true /\
    Collider.collidedMesh (collider s) = Some ground /\
    finalPosition s = Vector3.mk 0 0.5 0.
Proof.
  split; [lia|]. split; [vm_compute; reflexivity|].
  split; [vm_compute; reflexivity|].
  destruct (zero_displacement_one_sweep Bookkeeping CollisionsEpsilon reset
              narrow slide world true None 0 Vector3.Zero (Vector3.mk 0 0.5 0)
              (ball unitRadius) 1 7)
    as (s & Hrun & Hsweeps & Htrace & Hfinal);
    try (vm_compute; reflexivity); [lia|].
  exists s. split; [exact Hrun|]. split; [exact Hsweeps|].
  assert (Hs : Some s = Some s) by reflexivity.
  rewrite <- Hrun in Hs at 1. vm_compute in Hs. injection Hs as <-.
  repeat split.
Defined.


(** C9, as stated, fails, by rounding and by the response.  In the empty
    scene, from [(1, 0, 0)] with radius [(49, 1, 1)] and displacement
    [(1e-16, 0, 0)], no retry leaves the body at
    [(0.9999999999999999, 0, 0)], about [1.1e-16] away from its start, while
    one retry puts it at [(1, 0, 0)] exactly, at distance zero.  Before the
    wall at [x = 5], whose response carries the body to the wall and turns
    the rest of the motion back, a move by [(9, 0, 0)] from [(0, 2, 0)] ends
    at [(5, 2, 0)] under one retry, five units from the start, and at
    [(1, 2, 0)] under two, one unit from it. *)
#[warnings="-inexact-float"] Lemma more_retries_counterexample :
  (let origin := Vector3.mk 1 0 0 in
   let displacement := Vector3.mk 1e-16 0 0 in
   0 <= 1 /\
   exists s1 s2 : State Bookkeeping,
     PlaneWorld.getNewPosition 2 void Vector3.Zero origin displacement
       (ball (Vector3.mk 49 1 1)) 0 None 7 true = Some s1 /\
     PlaneWorld.getNewPosition 2 void Vector3.Zero origin displacement
       (ball (Vector3.mk 49 1 1)) 1 None 7 true = Some s2 /\
     finalPosition s1 = Vector3.mk 0.9999999999999999 0 0 /\
     finalPosition s2 = Vector3.mk 1 0 0 /\
     (displacementMagnitude (finalPosition s1) origin
        <=? displacementMagnitude (finalPosition s2) origin)%float = false) /\
  (let origin := Vector3.mk 0 2 0 in
   let displacement := Vector3.mk 9 0 0 in
   1 <= 2 /\
   exists s1 s2 : State Bookkeeping,
     Fixtures.wallGetNewPosition 3 world Vector3.Zero origin displacement
       (ball unitRadius) 1 None 7 true = Some s1 /\
     Fixtures.wallGetNewPosition 3 world Vector3.Zero origin displacement
       (ball unitRadius) 2 None 7 true = Some s2 /\
     finalPosition s1 = Vector3.mk 5 2 0 /\
     finalPosition s2 = Vector3.mk 1 2 0 /\
     displacementMagnitude (finalPosition s1) origin = 5%float /\
     displacementMagnitude (finalPosition s2) origin = 1%float /\
     (displacementMagnitude (finalPosition s1) origin
        <=? displacementMagnitude (finalPosition s2) origin)%float = false).
Proof.
  split.
  - split; [lia|].
    eexists. eexists. split; [vm_compute; reflexivity|].
    split; [vm_compute; reflexivity|].
    repeat split; vm_compute; reflexivity.
  - split; [lia|].
    eexists. eexists. split; [vm_compute; reflexivity|].
    split; [vm_compute; reflexivity|].
    repeat split; vm_compute; reflexivity.
Qed.

(** The sliding ball under budgets 1 and 2: the smaller budget runs out
    after the first iteration and leaves the ball at its start; the larger
    one goes through the same calls, then a second iteration, and lets it
    slide. *)
Lemma more_retries_extend_witness :
  1 <= 2 /\ (Z.to_nat 1 < 3)%nat /\ (Z.to_nat 2 < 3)%nat /\
  exists s1 s2 : State Bookkeeping,
    PlaneWorld.getNewPosition 3 world Vector3.Zero (Vector3.mk 0 2 0)
      (Vector3.mk 1 (-3) 0) (ball unitRadius) 1 None 7 true = Some s1 /\
    PlaneWorld.getNewPosition 3 world Vector3.Zero (Vector3.mk 0 2 0)
      (Vector3.mk 1 (-3) 0) (ball unitRadius) 2 None 7 true = Some s2 /\
    finalPosition s1 = Vector3.mk 0 2 0 /\
    finalPosition s2 = Vector3.mk 1 2 0 /\
    (exists calls rest : list Event,
       trace s1 = calls ++ [EvCallback 7 (finalPosition s1)
                              (Collider.collidedMesh (collider s1))] /\
       trace s2 = calls ++ rest
                  ++ [EvCallback 7 (finalPosition s2)
                        (Collider.collidedMesh (collider s2))]) /\
    (Collider._retry (collider s1) < 1 ->
     s1 = s2 /\
     displacementMagnitude (finalPosition s1) (Vector3.mk 0 2 0)
       = displacementMagnitude (finalPosition s2) (Vector3.mk 0 2 0)) /\
    (finalPosition s1 = finalPosition s2 \/
     (1 <= Collider._retry (collider s1) /\
      finalPosition s1 =
        Vector3.multiplyInPlace (position s1) unitRadius)).
Proof.
  split; [lia|]. split; [simpl; lia|]. split; [simpl; lia|].
  destruct (more_retries_extend Bookkeeping CollisionsEpsilon reset narrow
              slide world true None 3 3 Vector3.Zero (Vector3.mk 0 2 0)
              (Vector3.mk 1 (-3) 0) (ball unitRadius) 1 2 7)
    as (s1 & s2 & Hrun1 & Hrun2 & Hcases); [lia | simpl; lia | simpl; lia |].
  exists s1, s2. split; [exact Hrun1|]. split; [exact Hrun2|].
  assert (H1 : Some s1 = Some s1) by reflexivity.
  rewrite <- Hrun1 in H1 at 1. vm_compute in H1. injection H1 as E1.
  assert (H2 : Some s2 = Some s2) by reflexivity.
  rewrite <- Hrun2 in H2 at 1. vm_compute in H2. injection H2 as E2.
  split; [now rewrite <- E1|]. split; [now rewrite <- E2|]. exact Hcases.
Defined.

(** The rounding of the radius round trip is not special to an exhausted
    budget: an unobstructed body asked not to move at all, with one retry,
    radius [(0.3, 1, 1)] and start [(0.7, 0, 0)], is reported at
    [(0.7000000000000001, 0, 0)]. *)
#[warnings="-inexact-float"] Lemma radius_round_trip_rounds :
  exists s : State Bookkeeping,
    PlaneWorld.getNewPosition 1 void Vector3.Zero (Vector3.mk 0.7 0 0)
      Vector3.Zero (ball (Vector3.mk 0.3 1 1)) 1 None 7 true = Some s /\
    sweeps (trace s) = 1%nat /\
    finalPosition s = Vector3.mk 0.7000000000000001 0 0 /\
    finalPosition s <> Vector3.mk 0.7 0 0.
Proof.
  eexists. split; [vm_compute; reflexivity|].
  split; [reflexivity|]. split; [reflexivity | vm_compute; discriminate].
Qed.

(** ** Further runs in the reference world *)

(** The drifter sliding over the yard, where it is registered itself: the
    ground is tested on both iterations, the drifter never. *)
Lemma tested_meshes_pass_guard_witness :
  (Z.to_nat 3 < 4)%nat /\
  exists s : State Bookkeeping,
    PlaneWorld.getNewPosition 4 Bodies.yard Vector3.Zero (Vector3.mk 0 2 0)
      (Vector3.mk 1 (-3) 0) (ball unitRadius) 3 (Some Bodies.drifter) 7 true
      = Some s /\
    testedMeshes (trace s) = [ground; ground] /\
    forall m : AbstractMesh.t,
      In m (testedMeshes (trace s)) ->
      In m (candidates Bodies.yard (Some Bodies.drifter)) /\
      AbstractMesh.isEnabled m = true /\
      AbstractMesh.checkCollisions m = true /\
      AbstractMesh.subMeshes m <> None /\
      (forall e, Some Bodies.drifter = Some e ->
                 AbstractMesh.uniqueId m <> AbstractMesh.uniqueId e) /\
      bitAnd (effectiveMask (Some Bodies.drifter) (ball unitRadius))
             (AbstractMesh.collisionGroup m) <> 0.
Proof.
  split; [simpl; lia|].
  destruct (tested_meshes_pass_guard Bookkeeping CollisionsEpsilon reset
              narrow slide Bodies.yard true (Some Bodies.drifter) 4
              Vector3.Zero (Vector3.mk 0 2 0) (Vector3.mk 1 (-3) 0)
              (ball unitRadius) 3 7)
    as (s & Hrun & Hall); [simpl; lia|].
  exists s. split; [exact Hrun|]. split; [|exact Hall].
  assert (Hs : Some s = Some s) by reflexivity.
  rewrite <- Hrun in Hs at 1. vm_compute in Hs. injection Hs as <-.
  reflexivity.
Defined.

(** The ball resting on the ground under the budget 2.5: three tests, three
    responses. *)
Lemma number_budget_cost_witness :
  integerBudget 2.5 = Some 3 /\ 3 <= 2 ^ 53 /\ (Z.to_nat 3 < 4)%nat /\
  exists s : State Bookkeeping,
    Fixtures.numberGetNewPosition 4 world Vector3.Zero (Vector3.mk 0 0.5 0)
      (Vector3.mk 1 0 0) (ball unitRadius) 2.5 None 7 true = Some s /\
    List.length (testedMeshes (trace s)) = 3%nat /\
    List.length (filter isResponse (trace s)) = 3%nat /\
    (List.length (testedMeshes (trace s))
       <= Z.to_nat 3 * List.length (candidates world None))%nat /\
    (List.length (filter isResponse (trace s)) <= Z.to_nat 3)%nat.
Proof.
  split; [reflexivity|]. split; [lia|]. split; [simpl; lia|].
  destruct (number_budget_cost Bookkeeping CollisionsEpsilon reset narrow
              slide world true None 4 Vector3.Zero (Vector3.mk 0 0.5 0)
              (Vector3.mk 1 0 0) (ball unitRadius) 2.5 7 3)
    as (s & Hrun & Htests & Hresp); [reflexivity | lia | simpl; lia|].
  exists s. split; [exact Hrun|].
  assert (Hs : Some s = Some s) by reflexivity.
  rewrite <- Hrun in Hs at 1. vm_compute in Hs. injection Hs as E.
  split; [now rewrite <- E|]. split; [now rewrite <- E|].
  split; [exact Htests | exact Hresp].
Defined.

Lemma response_never_at_rest_witness :
  (Z.to_nat 3 < 4)%nat /\
  exists s : State Bookkeeping,
    PlaneWorld.getNewPosition 4 world Vector3.Zero (Vector3.mk 0 2 0)
      (Vector3.mk 1 (-3) 0) (ball unitRadius) 3 None 7 true = Some s /\
    (forall p v sl, In (EvGetResponse p v sl) (trace s) ->
                    Vector3.isNonZero v = true /\ sl = true) /\
    (forall p v e, In (EvInitialize p v e) (trace s) ->
                   e = (CollisionsEpsilon * 10)%float).
Proof.
  split; [simpl; lia|].
  apply (response_never_at_rest Bookkeeping CollisionsEpsilon reset narrow
           slide world true None 4 Vector3.Zero (Vector3.mk 0 2 0)
           (Vector3.mk 1 (-3) 0) (ball unitRadius) 3 7).
  simpl; lia.
Defined.

(** A collider that has just collided, used again with no budget: the flag
    still says "collision", the collided mesh is null. *)
Lemma exhausted_budget_keeps_flag_witness :
  -1 <= 0 /\
  exists s : State Bookkeeping,
    PlaneWorld.getNewPosition 1 world Vector3.Zero (Vector3.mk 0 5 0)
      (Vector3.mk 0 1 0) Bodies.used (-1) None 7 true = Some s /\
    Collider.collisionFound (collider s) = true /\
    Collider.collidedMesh (collider s) = None /\
    trace s = [EvCallback 7 (Vector3.mk 0 5 0) None].
Proof.
  split; [lia|].
  destruct (exhausted_budget_keeps_flag Bookkeeping CollisionsEpsilon reset
              narrow slide world true None 0 Vector3.Zero (Vector3.mk 0 5 0)
              (Vector3.mk 0 1 0) Bodies.used (-1) 7)
    as (s & Hrun & Ht & Hfin & Hhit & Hflag & _); [lia|].
  exists s. split; [exact Hrun|]. split; [exact Hflag|].
  split; [exact Hhit|]. rewrite Ht, Hfin. reflexivity.
Defined.

Lemma flag_tells_outcome_witness :
  1 <= 3 /\ (Z.to_nat 3 < 4)%nat /\
  exists s : State Bookkeeping,
    PlaneWorld.getNewPosition 4 world Vector3.Zero (Vector3.mk 0 2 0)
      (Vector3.mk 1 (-3) 0) (ball unitRadius) 3 None 7 true = Some s /\
    finalPosition s =
      Vector3.multiplyInPlace
        (if Collider.collisionFound (collider s)
         then position s
         else Vector3.addToRef (position s) (velocity s))
        unitRadius.
Proof.
  split; [lia|]. split; [simpl; lia|].
  apply (flag_tells_outcome Bookkeeping CollisionsEpsilon reset narrow slide
           world true None 4 Vector3.Zero (Vector3.mk 0 2 0)
           (Vector3.mk 1 (-3) 0) (ball unitRadius) 3 7); [lia | simpl; lia].
Defined.

(** The same approach without sliding: one sweep, whatever the budget. *)
Lemma stop_sweeps_once_witness :
  false = false /\
  (0 <=? closeDistance CollisionsEpsilon)%float = true /\
  (Z.to_nat 3 < 4)%nat /\
  exists s : State Bookkeeping,
    PlaneWorld.getNewPosition 4 world Vector3.Zero (Vector3.mk 0 2 0)
      (Vector3.mk 1 (-3) 0) (ball unitRadius) 3 None 7 false = Some s /\
    (sweeps (trace s) <= 1)%nat /\
    (List.length (testedMeshes (trace s))
       <= List.length (candidates world None))%nat /\
    (List.length (filter isResponse (trace s)) <= 1)%nat.
Proof.
  split; [reflexivity|]. split; [vm_compute; reflexivity|].
  split; [simpl; lia|].
  apply (stop_sweeps_once Bookkeeping CollisionsEpsilon reset narrow slide
           world false None 4 Vector3.Zero (Vector3.mk 0 2 0)
           (Vector3.mk 1 (-3) 0) (ball unitRadius) 3 7);
    [reflexivity | vm_compute; reflexivity | simpl; lia].
Defined.

(** The drifter in a scene that holds nothing but the drifter itself: no
    mesh is left to test, and it falls freely. *)
Lemma nothing_to_test_witness :
  1 <= 3 /\
  filter (shouldCheck (effectiveMask (Some Bodies.drifter) (ball unitRadius))
                      (Some Bodies.drifter))
         (candidates {| meshes := [Bodies.drifter] |} (Some Bodies.drifter))
    = [] /\
  exists s : State Bookkeeping,
    PlaneWorld.getNewPosition 1 {| meshes := [Bodies.drifter] |}
      Vector3.Zero (Vector3.mk 0 2 0) (Vector3.mk 1 (-3) 0)
      (ball unitRadius) 3 (Some Bodies.drifter) 7 true = Some s /\
    finalPosition s = Vector3.mk 1 (-1) 0 /\
    Collider.collidedMesh (collider s) = None.
Proof.
  split; [lia|]. split; [reflexivity|].
  destruct (nothing_to_test Bookkeeping CollisionsEpsilon reset narrow slide
              {| meshes := [Bodies.drifter] |} true (Some Bodies.drifter) 0
              Vector3.Zero (Vector3.mk 0 2 0) (Vector3.mk 1 (-3) 0)
              (ball unitRadius) 3 7)
    as (s & Hrun & _ & Hfin & _ & Hhit); [lia | reflexivity|].
  exists s. split; [exact Hrun|]. split; [|exact Hhit].
  rewrite Hfin. vm_compute. reflexivity.
Defined.

(** The ghost falls through the ground. *)
Lemma blind_mask_passes_witness :
  1 <= 3 /\
  ToInt32 (effectiveMask None Bodies.ghost) = 0 /\
  exists s : State Bookkeeping,
    PlaneWorld.getNewPosition 1 world Vector3.Zero (Vector3.mk 0 2 0)
      (Vector3.mk 1 (-3) 0) Bodies.ghost 3 None 7 true = Some s /\
    testedMeshes (trace s) = [] /\
    finalPosition s = Vector3.mk 1 (-1) 0 /\
    Collider.collidedMesh (collider s) = None.
Proof.
  split; [lia|]. split; [reflexivity|].
  destruct (blind_mask_passes Bookkeeping CollisionsEpsilon reset narrow
              slide world true None 0 Vector3.Zero (Vector3.mk 0 2 0)
              (Vector3.mk 1 (-3) 0) Bodies.ghost 3 7)
    as (s & Hrun & Ht & Hfin & Hhit); [lia | reflexivity|].
  exists s. split; [exact Hrun|]. split; [exact Ht|]. split; [|exact Hhit].
  rewrite Hfin. vm_compute. reflexivity.
Defined.

(** A coordinator fresh from the factory asked to sweep the scene. *)
Lemma unbound_coordinator_throws_witness :
  DefaultCollisionCoordinator._scene Bodies.fresh = None /\
  1 <= 3 /\
  (forall e, Some Bodies.drifter = Some e ->
             AbstractMesh.surroundingMeshes e = None) /\
  exists s : State Bookkeeping,
    Bodies.getNewPosition 1 Bodies.fresh (Vector3.mk 0 2 0)
      (Vector3.mk 1 (-3) 0) (ball unitRadius) 3 (Some Bodies.drifter) 7 true
      = DefaultCollisionCoordinator.Threw s /\
    trace s =
      [EvInitialize (Vector3.divideToRef (Vector3.mk 0 2 0) unitRadius)
                    (Vector3.divideToRef (Vector3.mk 1 (-3) 0) unitRadius)
                    (closeDistance CollisionsEpsilon)] /\
    Collider.collidedMesh (collider s) = None /\
    Collider.collisionFound (collider s) = false /\
    Collider._retry (collider s) = 0.
Proof.
  split; [reflexivity|]. split; [lia|].
  split; [now intros e [= <-]|].
  apply (unbound_coordinator_throws Bookkeeping CollisionsEpsilon reset
           narrow slide true (Some Bodies.drifter) 0 Bodies.fresh
           (Vector3.mk 0 2 0) (Vector3.mk 1 (-3) 0) (ball unitRadius) 3 7);
    [reflexivity | lia | now intros e [= <-]].
Defined.

(** The rover brings its own list of surrounding meshes: a coordinator with
    no scene serves it as well as one bound to the world. *)
Lemma scene_not_read_witness :
  (3 <= 0 \/
   exists e l, Some Bodies.rover = Some e /\
               AbstractMesh.surroundingMeshes e = Some l) /\
  Bodies.getNewPosition 4 Bodies.fresh (Vector3.mk 0 2 0)
    (Vector3.mk 1 (-3) 0) (ball unitRadius) 3 (Some Bodies.rover) 7 true =
  Bodies.getNewPosition 4 Bodies.bound (Vector3.mk 0 2 0)
    (Vector3.mk 1 (-3) 0) (ball unitRadius) 3 (Some Bodies.rover) 7 true.
Proof.
  split; [right; exists Bodies.rover, [ground]; split; reflexivity|].
  apply (scene_not_read Bookkeeping CollisionsEpsilon reset narrow slide
           true (Some Bodies.rover) 4 Bodies.fresh (Some world)
           (Vector3.mk 0 2 0) (Vector3.mk 1 (-3) 0) (ball unitRadius) 3 7).
  right. exists Bodies.rover, [ground]. split; reflexivity.
Defined.

(** A coordinator whose scratch vectors hold the remains of an earlier call
    answers as the one fresh from [init]. *)
Lemma coordinator_is_reusable_witness :
  let worn :=
    DefaultCollisionCoordinator.mk (Some world) (Vector3.mk 0 2 0)
      (Vector3.mk 1 0 0) (Vector3.mk 1 2 0) in
  DefaultCollisionCoordinator._scene worn =
    DefaultCollisionCoordinator._scene Bodies.bound /\
  exists s : State Bookkeeping,
    Bodies.getNewPosition 4 Bodies.bound (Vector3.mk 0 5 0)
      (Vector3.mk 0 (-10) 0) (ball unitRadius) 3 None 8 true
      = DefaultCollisionCoordinator.Returned s /\
    Bodies.getNewPosition 4 worn (Vector3.mk 0 5 0)
      (Vector3.mk 0 (-10) 0) (ball unitRadius) 3 None 8 true
      = DefaultCollisionCoordinator.Returned s.
Proof.
  intros worn. split; [reflexivity|].
  eexists. split; [vm_compute; reflexivity|].
  apply (coordinator_is_reusable Bookkeeping CollisionsEpsilon reset narrow
           slide true None 4 Bodies.bound worn (Vector3.mk 0 5 0)
           (Vector3.mk 0 (-10) 0) (ball unitRadius) 3 8);
    [reflexivity | vm_compute; reflexivity].
Defined.
